(** * financial-plotting: the MongoDB processor and the symbol finder

    A shallow embedding of [src/mongodb_processor.py] (the record
    normalizer, the backfill, the change-stream tailer and the driver) and
    of [determine_exchange] from [src/symbol_finder.py], followed by the
    properties of the specification that were checked against them.

    Python objects are modelled by the inductive [value] ([VOpaque] is a
    scalar of any other type: a float, an ObjectId, a datetime); a [dict] is an
    association list in insertion order, because the order decides which
    value survives when two keys are renamed onto the same name.
    Exceptions are values of [exn]; a computation that can raise returns
    [exn + A].  [uuid.uuid4()] is a draw from a supply [nat -> string],
    the state being the number of identifiers drawn so far.  The storage
    service is a record of behaviours ([Storage]); a change stream is the
    finite sequence of what its iteration yields before the loop is left
    (a stream that never ends has no exit to speak of). *)

From Stdlib Require Import List String Ascii Bool Arith Lia ZArith QArith.
From Stdlib Require Import DecimalString DecimalNat FinFun.
Import ListNotations.
Close Scope Q_scope.
Open Scope string_scope.
Open Scope list_scope.

(** ** Python values, dictionaries and exceptions *)

Module Py.

#[local] Set Warnings "-register-all".

Inductive value : Type :=
| VNone
| VBool (b : bool)
| VInt (z : Z)
| VStr (s : string)
| VList (items : list value)
| VDict (entries : list (string * value))
| VOpaque (repr : string).

(** The exception classes the two scripts can meet.  [PyMongoError]
    stands for [pymongo.errors.PyMongoError] and all its subclasses
    (duplicate key, bulk write error, connection failure, ...);
    [OtherException] for anything that is none of the others. *)
Inductive exn : Type :=
| ValueError (msg : string)
| TypeError
| KeyError (key : string)
| PyMongoError (msg : string)
| OtherException (msg : string).

Section Dict.
Context {V : Type}.

(** [d.get(k)], [None] when the key is absent. *)
Fixpoint dict_get (k : string) (d : list (string * V)) : option V :=
  match d with
  | [] => None
  | (k', v) :: rest => if String.eqb k k' then Some v else dict_get k rest
  end.

(** [k in d] *)
Definition dict_mem (k : string) (d : list (string * V)) : bool :=
  existsb (fun kv => String.eqb k (fst kv)) d.

Definition dict_keys (d : list (string * V)) : list string := map fst d.

(** [d.pop(k, None)]: the entry is removed, no error when it is absent. *)
Definition dict_pop (k : string) (d : list (string * V)) : list (string * V) :=
  filter (fun kv => negb (String.eqb k (fst kv))) d.

(** [d[k] = v]: an existing key keeps its position, a new key goes last. *)
Fixpoint dict_set (k : string) (v : V) (d : list (string * V)) : list (string * V) :=
  match d with
  | [] => [(k, v)]
  | (k', v') :: rest =>
      if String.eqb k k' then (k', v) :: rest else (k', v') :: dict_set k v rest
  end.

(** [d.update(other)] *)
Definition dict_update (d other : list (string * V)) : list (string * V) :=
  fold_left (fun acc kv => dict_set (fst kv) (snd kv) acc) other d.

(** A dict comprehension: the items are inserted one after the other
    into an empty dict. *)
Definition dict_of_items (items : list (string * V)) : list (string * V) :=
  dict_update [] items.
End Dict.

Definition dict := list (string * value).

(** [sub in s] for two strings. *)
Fixpoint is_substring (sub s : string) : bool :=
  if String.prefix sub s then true
  else match s with
       | EmptyString => false
       | String _ rest => is_substring sub rest
       end.

(** [x == k] for a string [k]. *)
Definition eq_str (k : string) (x : value) : bool :=
  match x with
  | VStr s => String.eqb s k
  | _ => false
  end.

(** [k in x] for a string [k]: key membership in a dict, element
    membership in a list, substring test in a string, [TypeError] on the
    objects that are not containers. *)
Definition py_contains (k : string) (x : value) : exn + bool :=
  match x with
  | VDict d => inr (dict_mem k d)
  | VList l => inr (existsb (eq_str k) l)
  | VStr s => inr (is_substring k s)
  | _ => inl TypeError
  end.

(** [x[k]] for a string [k]. *)
Definition py_getitem (x : value) (k : string) : exn + value :=
  match x with
  | VDict d => match dict_get k d with
               | Some v => inr v
               | None => inl (KeyError k)
               end
  | _ => inl TypeError
  end.

(** [any(k in record for record in data)]: stops at the first [True]; an
    exception of a membership test on the way propagates. *)
Fixpoint any_contains (k : string) (data : list value) : exn + bool :=
  match data with
  | [] => inr false
  | record :: rest =>
      match py_contains k record with
      | inl e => inl e
      | inr true => inr true
      | inr false => any_contains k rest
      end
  end.

(** [str(n)] for a natural number. *)
Definition str_of_nat (n : nat) : string :=
  NilEmpty.string_of_uint (Nat.to_uint n).

End Py.
Import Py.

(** ** A state and exception monad for the code that draws identifiers *)

Definition M (A : Type) : Type := nat -> (exn + A) * nat.

Definition ret {A} (a : A) : M A := fun s => (inr a, s).
Definition raise {A} (e : exn) : M A := fun s => (inl e, s).
Definition bind {A B} (m : M A) (f : A -> M B) : M B :=
  fun s => match m s with
           | (inl e, s') => (inl e, s')
           | (inr a, s') => f a s'
           end.
Definition lift {A} (r : exn + A) : M A :=
  match r with
  | inl e => raise e
  | inr a => ret a
  end.

Declare Scope py_scope.
Delimit Scope py_scope with py.
Notation "x <- m ;; k" := (bind m (fun x => k))
  (at level 100, m at next level, right associativity) : py_scope.
Open Scope py_scope.

(** ** [MongoDBProcessor.normalize_analyst_output] *)

Module Normalizer.
Section WithSupply.
(** The identifiers [str(uuid.uuid4())] returns, in the order of the draws. *)
Variable supply : nat -> string.

Definition uuid4 : M string := fun s => (inr (supply s), S s).

Definition default_keys_to_select : list string :=
  ["article_db_id"; "artical_db_id"; "published_datetime"; "pair"; "category_name"].

Definition msg_not_a_list : string := "Input data must be a list of dictionaries.".
Definition msg_column_not_found (column_name : string) : string :=
  "Column '" ++ column_name ++ "' not found in the data.".
Definition msg_neither_found : string :=
  "Neither 'analyst_consensus_output' nor 'analyst_outputs' found in the data.".

(** [if column_name:] is taken by a string that is not empty. *)
Definition truthy_column (column_name : option string) : option string :=
  match column_name with
  | Some c => if String.eqb c "" then None else Some c
  | None => None
  end.

(** Lines 33-43: the column that is processed. *)
Definition resolve_column (data : list value) (column_name : option string)
  : exn + string :=
  match truthy_column column_name with
  | Some c =>
      match any_contains c data with
      | inl e => inl e
      | inr true => inr c
      | inr false => inl (ValueError (msg_column_not_found c))
      end
  | None =>
      match any_contains "analyst_consensus_output" data with
      | inl e => inl e
      | inr true => inr "analyst_consensus_output"
      | inr false =>
          match any_contains "analyst_outputs" data with
          | inl e => inl e
          | inr true => inr "analyst_outputs"
          | inr false => inl (ValueError msg_neither_found)
          end
      end
  end.

(** [key_rename_map.get(k, k)] *)
Definition rename_key (key_rename_map : list (string * string)) (k : string) : string :=
  match dict_get k key_rename_map with
  | Some k' => k'
  | None => k
  end.

(** Lines 49-61: the record of one nested item, before its identifier. *)
Definition flatten
    (column_name : string) (keys_to_select : list string)
    (key_rename_map : option (list (string * string)))
    (record : dict) (nested : value) : dict :=
  let flattened_record := record in
  let flattened_record := dict_pop column_name flattened_record in
  let flattened_record := dict_pop "_id" flattened_record in
  let flattened_record :=
    match nested with
    | VDict n => dict_update flattened_record n
    | _ => flattened_record
    end in
  let flattened_record :=
    match keys_to_select with
    | [] => flattened_record
    | _ :: _ =>
        dict_of_items
          (filter (fun kv => existsb (String.eqb (fst kv)) keys_to_select)
                  flattened_record)
    end in
  match key_rename_map with
  | None | Some [] => flattened_record
  | Some m =>
      dict_of_items (map (fun kv => (rename_key m (fst kv), snd kv)) flattened_record)
  end.

(** Lines 48-66: the loop over the nested items of one record. *)
Fixpoint flatten_nested
    (column_name : string) (keys_to_select : list string)
    (key_rename_map : option (list (string * string)))
    (record : dict) (nesteds : list value) : M (list dict) :=
  match nesteds with
  | [] => ret []
  | nested :: rest =>
      let flattened_record :=
        flatten column_name keys_to_select key_rename_map record nested in
      signal_id <- uuid4 ;;
      let flattened_record := dict_set "signal_id" (VStr signal_id) flattened_record in
      others <- flatten_nested column_name keys_to_select key_rename_map record rest ;;
      ret (flattened_record :: others)
  end.

(** Lines 47-66: what one record appends to [normalized_data]. *)
Definition process_record
    (column_name : string) (keys_to_select : list string)
    (key_rename_map : option (list (string * string)))
    (record : value) : M (list dict) :=
  present <- lift (py_contains column_name record) ;;
  if (present : bool) then
    nested <- lift (py_getitem record column_name) ;;
    match nested, record with
    | VList nesteds, VDict d =>
        flatten_nested column_name keys_to_select key_rename_map d nesteds
    | VList _, _ => raise TypeError
    | _, _ => ret []
    end
  else ret [].

(** Lines 45-68: the loop over the records. *)
Fixpoint process_records
    (column_name : string) (keys_to_select : list string)
    (key_rename_map : option (list (string * string)))
    (data : list value) : M (list dict) :=
  match data with
  | [] => ret []
  | record :: rest =>
      produced <- process_record column_name keys_to_select key_rename_map record ;;
      others <- process_records column_name keys_to_select key_rename_map rest ;;
      ret (produced ++ others)
  end.

Definition normalize_analyst_output
    (data : value) (column_name : option string)
    (keys_to_select : list string)
    (key_rename_map : option (list (string * string))) : M (list dict) :=
  match data with
  | VList records =>
      column_name <- lift (resolve_column records column_name) ;;
      process_records column_name keys_to_select key_rename_map records
  | _ => raise (ValueError msg_not_a_list)
  end.
End WithSupply.
End Normalizer.

(** ** The stateful methods of [MongoDBProcessor] *)

Module Processor.

(** What the processor does to the outside, in order: the lines it
    prints and the calls it makes on its collections and on its client. *)
Inductive event : Type :=
| Print (line : string)
| Find
| InsertMany (documents : list value)
| Watch
| InsertOne (document : value)
| Close.

(** The change stream [watch()] returns, as the iteration sees it: the
    next notification, the end of the stream, or an exception raised
    while waiting for the next notification. *)
Inductive stream : Type :=
| StreamEnd
| StreamRaise (e : exn)
| StreamNext (change : value) (rest : stream).

(** The storage service behind the processor.  [T] is the state of the
    target collection; an insert returns the new state and the exception
    it raised, if any (a bulk insert may have written a part before it
    failed). *)
Record Storage (T : Type) : Type := {
  source_find : exn + list value;
  source_watch : exn + stream;
  target_insert_one : T -> value -> T * option exn;
  target_insert_many : T -> list value -> T * option exn
}.
Arguments source_find {T} _.
Arguments source_watch {T} _.
Arguments target_insert_one {T} _ _ _.
Arguments target_insert_many {T} _ _ _.

Record state (T : Type) : Type := {
  target : T;
  client_open : bool;
  uuids_drawn : nat;
  trace : list event
}.
Arguments target {T} _.
Arguments client_open {T} _.
Arguments uuids_drawn {T} _.
Arguments trace {T} _.

Section WithStorage.
Context {T : Type}.
Variable supply : nat -> string.
Variable db : Storage T.

Definition emit (ev : event) (st : state T) : state T :=
  {| target := target st; client_open := client_open st;
     uuids_drawn := uuids_drawn st; trace := trace st ++ [ev] |}.

Definition print (line : string) (st : state T) : state T := emit (Print line) st.

Definition set_target (t : T) (st : state T) : state T :=
  {| target := t; client_open := client_open st;
     uuids_drawn := uuids_drawn st; trace := trace st |}.

Definition set_uuids_drawn (n : nat) (st : state T) : state T :=
  {| target := target st; client_open := client_open st;
     uuids_drawn := n; trace := trace st |}.

(** [self.client.close()] *)
Definition close_client (st : state T) : state T :=
  emit Close {| target := target st; client_open := false;
                uuids_drawn := uuids_drawn st; trace := trace st |}.

(** Lines 70-83.  The result is the final state and the exception that
    leaves the method, if any. *)
Definition process_existing_data (st : state T) : state T * option exn :=
  let st := print "Processing existing data..." st in
  let st := emit Find st in
  match source_find db with
  | inl e => (st, Some e)
  | inr documents =>
      match Normalizer.normalize_analyst_output supply (VList documents) None
              Normalizer.default_keys_to_select None (uuids_drawn st) with
      | (inl e, n) => (set_uuids_drawn n st, Some e)
      | (inr data, n) =>
          let st := set_uuids_drawn n st in
          let documents := map VDict data in
          let st := emit (InsertMany documents) st in
          match target_insert_many db (target st) documents with
          | (t, None) =>
              (print ("Processed and inserted " ++ str_of_nat (List.length data)
                      ++ " existing documents.") (set_target t st), None)
          | (t, Some (PyMongoError m)) =>
              (print ("Error occurred during insert_many: " ++ m) (set_target t st), None)
          | (t, Some e) => (set_target t st, Some e)
          end
      end
  end.

(** Lines 92-99: the loop over the notifications of the stream. *)
Fixpoint consume (s : stream) (st : state T) : state T * option exn :=
  match s with
  | StreamEnd => (st, None)
  | StreamRaise e => (st, Some e)
  | StreamNext change rest =>
      match py_getitem change "operationType" with
      | inl e => (st, Some e)
      | inr operationType =>
          if eq_str "insert" operationType then
            match py_getitem change "fullDocument" with
            | inl e => (st, Some e)
            | inr new_document =>
                let st := emit (InsertOne new_document) st in
                match target_insert_one db (target st) new_document with
                | (t, None) =>
                    consume rest (print "Processed and inserted a document" (set_target t st))
                | (t, Some (ValueError m)) =>
                    consume rest (print ("Insertion error: " ++ m) (set_target t st))
                | (t, Some e) => (set_target t st, Some e)
                end
            end
          else consume rest st
      end
  end.

(** Lines 85-104. *)
Definition start_change_stream (st : state T) : state T * option exn :=
  let st := print "Listening for new changes..." st in
  let st := emit Watch st in
  let '(st, raised) :=
    match source_watch db with
    | inl e => (st, Some e)
    | inr s => consume s st
    end in
  let '(st, raised) :=
    match raised with
    | Some (PyMongoError m) =>
        (print ("Error occurred during change stream: " ++ m) st, None)
    | _ => (st, raised)
    end in
  let st := close_client st in
  let st := print "Connection closed." st in
  (st, raised).

(** Lines 106-111. *)
Definition run (st : state T) : state T * option exn :=
  match process_existing_data st with
  | (st, Some e) => (st, Some e)
  | (st, None) => start_change_stream st
  end.
End WithStorage.

(** The processor right after [__init__]. *)
Definition initial {T : Type} (t : T) : state T :=
  {| target := t; client_open := true; uuids_drawn := 0; trace := [] |}.

(** The tail phase was begun: [start_change_stream] was entered and made
    its call to [watch()]. *)
Definition tailer_started (tr : list event) : Prop := In Watch tr.

End Processor.

(** ** [Symbol_finder.determine_exchange] *)

Module SymbolFinder.

(** A row of the cleaned frame of TradingView symbols, with the columns
    the method reads. *)
Record row : Type := {
  symbol : string;
  currency_code : string;
  exchange : string;
  source_id : string;
  Base : string
}.

Definition message_no_base : string := "There is no matches for the base currency!".

(** Python's [max(xs, key=key)]: the first of the items whose key is the
    largest; [None] stands for the [ValueError] on an empty sequence. *)
Fixpoint max_from {A : Type} (key : A -> Q) (best : A) (xs : list A) : A :=
  match xs with
  | [] => best
  | x :: rest =>
      if Qle_bool (key x) (key best) then max_from key best rest
      else max_from key x rest
  end.

Definition py_max {A : Type} (key : A -> Q) (xs : list A) : option A :=
  match xs with
  | [] => None
  | x :: rest => Some (max_from key x rest)
  end.

Section WithStrings.
(** [str.upper] and [difflib.SequenceMatcher(None, a, b).ratio()]. *)
Variable upper : string -> string.
Variable ratio : string -> string -> Q.

(** Lines 115-118. *)
Definition create_url (trading_pair exchange : string) : string :=
  let s := ("symbol=" ++ upper exchange ++ ":" ++ upper trading_pair)%string in
  "https://s.tradingview.com/widgetembed/?frameElementId=tradingview_abc&"
    ++ s ++ "&interval=60&theme=dark".

(** Lines 120-135. *)
Definition generate_trading_urls
    (base_currency quote_currency : string) (df_filtered : list row) : list dict :=
  let df_filtered2 :=
    filter (fun r => String.eqb (currency_code r) quote_currency) df_filtered in
  map (fun r =>
         [ ("base_currency", VStr base_currency);
           ("quote_currency", VStr quote_currency);
           ("exchange", VStr (exchange r));
           ("url", VStr (create_url (symbol r) (source_id r))) ])
      df_filtered2.

(** Lines 138-152.  [fuel] bounds the depth of the nested calls: the
    call itself takes one unit, and [None] says that the bound was too
    small for the call to return. *)
Fixpoint determine_exchange
    (fuel : nat) (df_cleaned : list row) (BASE : string) (QUOTE : option string)
  : option (exn + value) :=
  match fuel with
  | O => None
  | S fuel =>
      let BASE := upper BASE in
      if negb (existsb (String.eqb BASE) (map Base df_cleaned))
      then Some (inr (VStr message_no_base))
      else
        let df_filtered := filter (fun r => String.eqb (Base r) BASE) df_cleaned in
        match QUOTE with
        | None => determine_exchange fuel df_cleaned BASE (Some "USD")
        | Some QUOTE =>
            if existsb (String.eqb QUOTE) (map currency_code df_filtered)
            then Some (inr (VList (map VDict
                          (generate_trading_urls BASE QUOTE df_filtered))))
            else
              match py_max (fun x => ratio QUOTE x) (map currency_code df_filtered) with
              | None => Some (inl (ValueError "max() arg is an empty sequence"))
              | Some most_similar_QUOTE =>
                  determine_exchange fuel df_cleaned BASE (Some most_similar_QUOTE)
              end
        end
  end.
End WithStrings.

(** [str.upper] on the strings of ASCII characters. *)
Definition upper_char (c : ascii) : ascii :=
  let n := nat_of_ascii c in
  if (97 <=? n)%nat && (n <=? 122)%nat then ascii_of_nat (n - 32) else c.

Fixpoint upper_ascii (s : string) : string :=
  match s with
  | EmptyString => EmptyString
  | String c rest => String (upper_char c) (upper_ascii rest)
  end.

End SymbolFinder.

(** ** Concrete inputs used by the examples below *)

Module Examples.
Import Normalizer Processor SymbolFinder.

(** A supply of pairwise different identifiers. *)
Definition demo_supply (n : nat) : string := "uuid-" ++ str_of_nat n.

(** The record of the scenario of the specification, with a system
    identifier added. *)
Definition article_A1 : dict :=
  [ ("_id", VInt 7);
    ("article_db_id", VStr "A1");
    ("pair", VStr "BTC/USD");
    ("analyst_outputs",
      VList [VDict [("category_name", VStr "x")]; VDict [("category_name", VStr "y")]]) ].

(** A record that holds the other recognised nested field. *)
Definition article_A2 : dict :=
  [ ("article_db_id", VStr "A2");
    ("analyst_consensus_output", VList [VDict [("category_name", VStr "z")]]) ].

(** A target collection with its unique index on integer [_id]s: an
    insert of a document whose [_id] is already there raises
    [DuplicateKeyError], a [PyMongoError]. *)
Definition int_id (document : value) : option Z :=
  match document with
  | VDict d => match dict_get "_id" d with
               | Some (VInt z) => Some z
               | _ => None
               end
  | _ => None
  end.

Definition has_id (z : Z) (t : list value) : bool :=
  existsb (fun d => match int_id d with
                    | Some z' => Z.eqb z z'
                    | None => false
                    end) t.

Definition unique_insert_one (t : list value) (document : value)
  : list value * option exn :=
  match int_id document with
  | Some z =>
      if has_id z t
      then (t, Some (PyMongoError "E11000 duplicate key error"))
      else (t ++ [document], None)
  | None => (t ++ [document], None)
  end.

Fixpoint unique_insert_all (t : list value) (documents : list value)
  : list value * option exn :=
  match documents with
  | [] => (t, None)
  | d :: rest =>
      match unique_insert_one t d with
      | (t', None) => unique_insert_all t' rest
      | (t', Some e) => (t', Some e)
      end
  end.

(** [insert_many] refuses an empty list with a [TypeError]. *)
Definition unique_insert_many (t : list value) (documents : list value)
  : list value * option exn :=
  match documents with
  | [] => (t, Some TypeError)
  | _ => unique_insert_all t documents
  end.

Definition insert_notification (document : value) : value :=
  VDict [("operationType", VStr "insert"); ("fullDocument", document)].

Definition doc1 : value := VDict [("_id", VInt 1); ("pair", VStr "BTC/USD")].
Definition doc2 : value := VDict [("_id", VInt 2); ("pair", VStr "ETH/USD")].

(** The source holds [article_A1]; its stream then delivers the inserts
    of [doc1] and of [doc2]. *)
Definition two_inserts : Storage (list value) :=
  {| source_find := inr [VDict article_A1];
     source_watch := inr (StreamNext (insert_notification doc1)
                           (StreamNext (insert_notification doc2) StreamEnd));
     target_insert_one := unique_insert_one;
     target_insert_many := unique_insert_many |}.

(** The same source, with a target that cannot be reached during the
    backfill: the bulk insert writes nothing and raises a [PyMongoError]. *)
Definition unreachable_target : Storage (list value) :=
  {| source_find := inr [VDict article_A1];
     source_watch := inr (StreamNext (insert_notification doc2) StreamEnd);
     target_insert_one := unique_insert_one;
     target_insert_many := fun t _ => (t, Some (PyMongoError "connection closed")) |}.

(** A similarity for the examples of [determine_exchange]: twice the
    length of the common prefix over the sum of the lengths.  It stands
    in for difflib's ratio, which no property below depends on. *)
Fixpoint common_prefix (a b : string) : nat :=
  match a, b with
  | String x a', String y b' =>
      if Ascii.eqb x y then S (common_prefix a' b') else O
  | _, _ => O
  end.

Definition prefix_ratio (a b : string) : Q :=
  match (String.length a + String.length b)%nat with
  | O => 1%Q
  | S n => Qmake (2 * Z.of_nat (common_prefix a b)) (Pos.of_succ_nat n)
  end.

Definition tv_symbols : list row :=
  [ {| symbol := "BTCUSDT"; currency_code := "USDT"; exchange := "Binance";
       source_id := "binance"; Base := "BTC" |};
    {| symbol := "BTCEUR"; currency_code := "EUR"; exchange := "Kraken";
       source_id := "kraken"; Base := "BTC" |};
    {| symbol := "ETHUSD"; currency_code := "USD"; exchange := "Coinbase";
       source_id := "coinbase"; Base := "ETH" |} ].

End Examples.

Import Normalizer Processor SymbolFinder.

(** ** The vocabulary of the statements *)

(** The nested items of a record under a column: the items of the list
    found there, none when the column is absent or holds something else. *)
Definition nested_items (column_name : string) (record : dict) : list value :=
  match dict_get column_name record with
  | Some (VList nesteds) => nesteds
  | _ => []
  end.

Definition nested_len (column_name : string) (record : dict) : nat :=
  List.length (nested_items column_name record).

(** The flattened records of a list of records, before their identifiers. *)
Definition flattened
    (column_name : string) (keys_to_select : list string)
    (key_rename_map : option (list (string * string)))
    (records : list dict) : list dict :=
  flat_map (fun d => map (flatten column_name keys_to_select key_rename_map d)
                         (nested_items column_name d))
           records.

(** The identifiers drawn from the state [s] on, set in order. *)
Fixpoint stamp_from (supply : nat -> string) (s : nat) (flats : list dict) : list dict :=
  match flats with
  | [] => []
  | f :: rest =>
      dict_set "signal_id" (VStr (supply s)) f :: stamp_from supply (S s) rest
  end.

(** The column a list of dictionaries resolves to, if any. *)
Definition resolved (records : list dict) (column_name : option string)
  : option string :=
  match truthy_column column_name with
  | Some c => if existsb (dict_mem c) records then Some c else None
  | None =>
      if existsb (dict_mem "analyst_consensus_output") records
      then Some "analyst_consensus_output"
      else if existsb (dict_mem "analyst_outputs") records
           then Some "analyst_outputs"
           else None
  end.

Definition missing_column_message (column_name : option string) : string :=
  match truthy_column column_name with
  | Some c => msg_column_not_found c
  | None => msg_neither_found
  end.

(** The records a call returns are flattened records, each with the
    identifier of its own draw. *)
Definition stamped_from
    (supply : nat -> string) (col : string) (keys : list string)
    (ren : option (list (string * string)))
    (s : nat) (out : list dict) (s' : nat) : Prop :=
  exists flats,
    out = stamp_from supply s flats /\
    s' = s + List.length flats /\
    Forall (fun f => exists d nested, f = flatten col keys ren d nested) flats.

(** The name a selected key has in the output. *)
Definition renamed (key_rename_map : option (list (string * string))) (k : string)
  : string :=
  match key_rename_map with
  | Some m => rename_key m k
  | None => k
  end.

(** Every key of every record of [out] is the reserved name or allowed. *)
Definition keys_within (allowed : string -> Prop) (out : list dict) : Prop :=
  forall r k, In r out -> In k (dict_keys r) -> k = "signal_id" \/ allowed k.

(** The bulk insert of the backfill fails with a storage error. *)
Definition backfill_write_fails
    {T : Type} (supply : nat -> string) (db : Storage T) (st : state T) : Prop :=
  exists documents data n t m,
    source_find db = inr documents /\
    normalize_analyst_output supply (VList documents) None
      default_keys_to_select None (uuids_drawn st) = (inr data, n) /\
    target_insert_many db (target st) (map VDict data) = (t, Some (PyMongoError m)).

(** The currency codes of the rows of a base, as a call of
    [determine_exchange] computes them, and whether the base has rows. *)
Definition base_codes (upper : string -> string) (df : list row) (BASE : string)
  : list string :=
  map currency_code (filter (fun r => String.eqb (Base r) (upper BASE)) df).

Definition base_known (upper : string -> string) (df : list row) (BASE : string)
  : bool :=
  existsb (String.eqb (upper BASE)) (map Base df).

(** ** [Symbol_finder.get_market_data_with_proxy] *)

Module MarketData.

(** What a request can fail with: a [requests.exceptions.RequestException]
    (a timeout, a refused connection, and for [response.json()] a body
    that is not JSON), which the method catches, or anything else, which
    it does not. *)
Inductive failure : Type :=
| RequestException (msg : string)
| Uncaught (e : exn).

(** What [requests.get] does: it raises, or it returns a response with
    its status code and with what [response.json()] gives. *)
Inductive reply : Type :=
| Raised (f : failure)
| Response (status_code : nat) (json : failure + value).

Inductive net_event : Type :=
| Get (coin quote : string) (offset : nat) (proxy : string)
| Sleep (seconds : nat)
| Say (line : string).

(** The number of requests made so far, and what was done, in order. *)
Record net_state : Type := {
  requests_made : nat;
  log : list net_event
}.

Definition say (line : string) (w : net_state) : net_state :=
  {| requests_made := requests_made w; log := log w ++ [Say line] |}.

Definition sleep (seconds : nat) (w : net_state) : net_state :=
  {| requests_made := requests_made w; log := log w ++ [Sleep seconds] |}.

Definition request (coin quote : string) (offset : nat) (proxy : string)
    (w : net_state) : net_state :=
  {| requests_made := S (requests_made w);
     log := log w ++ [Get coin quote offset proxy] |}.

(** [response.json().get('data', [])] *)
Definition data_of (json : value) : exn + value :=
  match json with
  | VDict d => match dict_get "data" d with
               | Some v => inr v
               | None => inr (VList [])
               end
  | _ => inl (OtherException "AttributeError")
  end.

Section WithServer.
(** The reply to the n-th request. *)
Variable server : nat -> reply.
Variables (coin quote : string) (offset : nat) (proxy : string).
Variable retries : nat.

(** Lines 49-80: the loop, [remaining] being [retries - retry_count].
    [None] in the result is Python's [None]. *)
Fixpoint attempt (remaining retry_count : nat) (w : net_state)
  : net_state * (exn + option value) :=
  match remaining with
  | O => (say ("Failed after " ++ str_of_nat retries ++ " retries") w, inr None)
  | S remaining =>
      let answer := server (requests_made w) in
      let w := request coin quote offset proxy w in
      let on_exception (m : string) :=
        let w := say ("Request failed: " ++ m) w in
        let retry_count := S retry_count in
        attempt remaining retry_count (sleep (2 ^ retry_count) w) in
      match answer with
      | Raised (RequestException m) => on_exception m
      | Raised (Uncaught e) => (w, inl e)
      | Response status_code json =>
          if Nat.eqb status_code 200 then
            match json with
            | inl (RequestException m) => on_exception m
            | inl (Uncaught e) => (w, inl e)
            | inr body =>
                match data_of body with
                | inl e => (w, inl e)
                | inr data => (w, inr (Some data))
                end
            end
          else if Nat.eqb status_code 503 then
            let retry_count := S retry_count in
            let wait_time := 2 ^ retry_count in
            let w := say ("503 Error: Retrying in " ++ str_of_nat wait_time
                          ++ " seconds...") w in
            attempt remaining retry_count (sleep wait_time w)
          else
            (say ("Request failed with status code " ++ str_of_nat status_code) w,
             inr None)
      end
  end.

Definition get_market_data_with_proxy (w : net_state)
  : net_state * (exn + option value) :=
  attempt retries 0 w.
End WithServer.

(** The state in which the loop goes round again: after the request, a
    line and the sleep. *)
Definition after_retry (coin quote : string) (offset : nat) (proxy : string)
    (line : string) (retry_count : nat) (w : net_state) : net_state :=
  sleep (2 ^ S retry_count) (say line (request coin quote offset proxy w)).

(** The replies after which the loop goes round again. *)
Definition retried (r : reply) : bool :=
  match r with
  | Raised (RequestException _) => true
  | Raised (Uncaught _) => false
  | Response status_code json =>
      if Nat.eqb status_code 200 then
        match json with
        | inl (RequestException _) => true
        | _ => false
        end
      else Nat.eqb status_code 503
  end.

(** The seconds slept, and the requests sent, in a log. *)
Definition slept (l : list net_event) : nat :=
  list_sum (map (fun ev => match ev with Sleep n => n | _ => 0 end) l).

Definition gets (l : list net_event) : nat :=
  List.length (filter (fun ev => match ev with Get _ _ _ _ => true | _ => false end) l).

End MarketData.

(** ** [Symbol_finder.extract_tv_url] *)

Module TvSymbols.

(** [c in chars] for a character. *)
Fixpoint char_in (c : ascii) (chars : string) : bool :=
  match chars with
  | EmptyString => false
  | String x rest => Ascii.eqb c x || char_in c rest
  end.

(** [s.rstrip(chars)]: the trailing characters that are in [chars] go. *)
Fixpoint py_rstrip (chars : string) (s : string) : string :=
  match s with
  | EmptyString => EmptyString
  | String c rest =>
      match py_rstrip chars rest with
      | EmptyString => if char_in c chars then EmptyString else String c EmptyString
      | kept => String c kept
      end
  end.

(** [s.endswith(suffix)] *)
Fixpoint py_endswith (s suffix : string) : bool :=
  String.eqb s suffix ||
  match s with
  | EmptyString => false
  | String _ rest => py_endswith rest suffix
  end.

(** [s.replace(old, '')]: the occurrences of [old] are removed, found
    from the left and not overlapping; [skip] characters of an
    occurrence are still to be dropped.  Nothing goes when [old] is
    empty. *)
Fixpoint remove_from (old : string) (skip : nat) (s : string) : string :=
  match s with
  | EmptyString => EmptyString
  | String c rest =>
      match skip with
      | S skip => remove_from old skip rest
      | O =>
          if String.prefix old s
          then remove_from old (String.length old - 1) rest
          else String c (remove_from old O rest)
      end
  end.

Definition py_remove (old s : string) : string :=
  match old with
  | EmptyString => s
  | _ => remove_from old O s
  end.

(** A row of the file of TradingView symbols; the currency code may be
    missing (NaN). *)
Record raw_row : Type := {
  raw_symbol : string;
  raw_currency_code : option string;
  raw_exchange : string;
  raw_source_id : string
}.

(** Line 43: [x.rstrip('.P') if x.endswith('.P') else x] *)
Definition Base0 (x : string) : string :=
  if py_endswith x ".P" then py_rstrip ".P" x else x.

(** Line 42: [dropna] on the currency code; lines 43-44: the two
    columns of the rows that are left. *)
Definition rows_with_code (df : list raw_row) : list row :=
  flat_map
    (fun r =>
       match raw_currency_code r with
       | None => []
       | Some code =>
           [ {| symbol := raw_symbol r; currency_code := code;
                exchange := raw_exchange r; source_id := raw_source_id r;
                Base := py_remove code (Base0 (raw_symbol r)) |} ]
       end)
    df.

(** Lines 42-44.  When [dropna] leaves no row, the row-wise [apply] of
    line 44 gives back an empty frame instead of a column, and the
    assignment to [Base] raises a [ValueError] (the text is pandas's and
    depends on its version). *)
Definition clean (df : list raw_row) : exn + list row :=
  match rows_with_code df with
  | [] => inl (ValueError
                 "Cannot set a DataFrame with multiple columns to the single column Base")
  | rows => inr rows
  end.

(** Lines 39-45, on the frame read from the file. *)
Definition extract_tv_url
    (upper : string -> string) (ratio : string -> string -> Q) (fuel : nat)
    (df : list raw_row) (BASE : string) (QUOTE : option string)
  : option (exn + value) :=
  match clean df with
  | inl e => Some (inl e)
  | inr df_cleaned => determine_exchange upper ratio fuel df_cleaned BASE QUOTE
  end.

End TvSymbols.

(** ** More vocabulary and inputs *)

(** The stream that delivers the given notifications and then ends. *)
Definition stream_of_list (changes : list value) : stream :=
  fold_right StreamNext StreamEnd changes.

(** The document a notification asks to copy, if it is an insert. *)
Definition inserted_document (change : value) : option value :=
  match py_getitem change "operationType" with
  | inr operationType =>
      if eq_str "insert" operationType then
        match py_getitem change "fullDocument" with
        | inr document => Some document
        | inl _ => None
        end
      else None
  | inl _ => None
  end.

Definition inserted_documents (changes : list value) : list value :=
  flat_map (fun c => match inserted_document c with
                     | Some d => [d]
                     | None => []
                     end) changes.

(** A notification with its operation type, and with its document when
    it is an insert. *)
Definition well_formed_change (change : value) : bool :=
  match py_getitem change "operationType" with
  | inr operationType =>
      if eq_str "insert" operationType then
        match py_getitem change "fullDocument" with
        | inr _ => true
        | inl _ => false
        end
      else true
  | inl _ => false
  end.

(** A value that is no container: [k in x] raises a [TypeError]. *)
Definition is_scalar (x : value) : bool :=
  match x with
  | VNone | VBool _ | VInt _ | VOpaque _ => true
  | VStr _ | VList _ | VDict _ => false
  end.

(** The documents of the calls to [insert_one] in a trace. *)
Definition inserts_of (tr : list event) : list value :=
  flat_map (fun ev => match ev with
                      | InsertOne d => [d]
                      | _ => []
                      end) tr.

(** A nested item whose keys, if it is a dict, are pairwise different. *)
Definition unique_keys (v : value) : Prop :=
  match v with
  | VDict n => NoDup (dict_keys n)
  | _ => True
  end.

(** What is found under a key other than [signal_id] in the record made
    from a parent and one of its nested items, when no key is renamed:
    nothing if a selection is given and the key is not in it; else the
    value of the nested item if it is a dict with the key; else the value
    of the parent, unless the key is the nested column or [_id]. *)
Definition overlay_lookup
    (column_name : string) (keys_to_select : list string)
    (record : dict) (nested : value) (k : string) : option value :=
  let selected :=
    match keys_to_select with
    | [] => true
    | _ => existsb (String.eqb k) keys_to_select
    end in
  if selected then
    match (match nested with VDict n => dict_get k n | _ => None end) with
    | Some v => Some v
    | None =>
        if String.eqb k column_name || String.eqb k "_id" then None
        else dict_get k record
    end
  else None.

(** The quote [determine_exchange] answers for: the one asked for ([USD]
    when none is), if it is a code of the base, else the most similar of
    the codes of the base. *)
Definition chosen_quote
    (upper : string -> string) (ratio : string -> string -> Q)
    (df : list row) (BASE : string) (QUOTE : option string) : option string :=
  let asked := match QUOTE with Some q => q | None => "USD" end in
  if existsb (String.eqb asked) (base_codes upper df BASE) then Some asked
  else py_max (fun x => ratio asked x) (base_codes upper df BASE).

Definition determine_exchange_answer
    (upper : string -> string) (ratio : string -> string -> Q)
    (df : list row) (BASE : string) (QUOTE : option string) : exn + value :=
  if base_known upper df BASE then
    match chosen_quote upper ratio df BASE QUOTE with
    | Some q =>
        inr (VList (map VDict
               (generate_trading_urls upper (upper BASE) q
                  (filter (fun r => String.eqb (Base r) (upper BASE)) df))))
    | None => inl (ValueError "max() arg is an empty sequence")
    end
  else inr (VStr message_no_base).

Module MoreExamples.
Import MarketData.

(** A target that takes every document, behind a source whose stream
    delivers an update and the inserts of [doc1] and [doc2]. *)
Definition append_only : Storage (list value) :=
  {| source_find := inr [VDict Examples.article_A1];
     source_watch := inr (stream_of_list
       [ Examples.insert_notification Examples.doc1;
         VDict [("operationType", VStr "update")];
         Examples.insert_notification Examples.doc2 ]);
     target_insert_one := fun t d => (t ++ [d], None);
     target_insert_many := fun t ds => (t ++ ds, None) |}.

(** The same, with a target that refuses [doc1] with a [ValueError]. *)
Definition refusing_doc1 : Storage (list value) :=
  {| source_find := inr [VDict Examples.article_A1];
     source_watch := source_watch append_only;
     target_insert_one := fun t d =>
       match Examples.int_id d with
       | Some 1%Z => (t, Some (ValueError "refused"))
       | _ => (t ++ [d], None)
       end;
     target_insert_many := fun t ds => (t ++ ds, None) |}.

(** A source without records, and a source whose only record has an
    empty list of outputs, in front of a target that, like pymongo's,
    refuses an empty bulk insert with a [TypeError]. *)
Definition empty_source : Storage (list value) :=
  {| source_find := inr (map VDict []);
     source_watch := inr StreamEnd;
     target_insert_one := Examples.unique_insert_one;
     target_insert_many := Examples.unique_insert_many |}.

Definition no_outputs : dict :=
  [("article_db_id", VStr "A3"); ("analyst_outputs", VList [])].

Definition source_without_outputs : Storage (list value) :=
  {| source_find := inr (map VDict [no_outputs]);
     source_watch := inr StreamEnd;
     target_insert_one := Examples.unique_insert_one;
     target_insert_many := Examples.unique_insert_many |}.

Definition find_fails : Storage (list value) :=
  {| source_find := inl (PyMongoError "connection refused");
     source_watch := inr StreamEnd;
     target_insert_one := Examples.unique_insert_one;
     target_insert_many := Examples.unique_insert_many |}.

(** A server that is busy twice and then answers. *)
Definition busy_twice (n : nat) : reply :=
  match n with
  | 0 => Response 503 (inr VNone)
  | 1 => Raised (RequestException "timed out")
  | _ => Response 200 (inr (VDict [("data", VList [VDict [("base", VStr "BTC")]])]))
  end.

Definition always_busy (n : nat) : reply := Response 503 (inr VNone).

Definition fresh : net_state := {| requests_made := 0; log := [] |}.

End MoreExamples.

(** * Properties *)

(** ** Dictionaries *)

Section DictFacts.
Context {V : Type}.
Implicit Types (d : list (string * V)) (k : string) (v : V).

Lemma dict_get_set_same k v d : dict_get k (dict_set k v d) = Some v.
Proof.
  induction d as [|[k' v'] d IH]; simpl.
  - now rewrite String.eqb_refl.
  - destruct (String.eqb k k') eqn:E; simpl; rewrite E; auto.
Qed.

Lemma dict_keys_set k v d k0 :
  In k0 (dict_keys (dict_set k v d)) -> k0 = k \/ In k0 (dict_keys d).
Proof.
  unfold dict_keys.
  induction d as [|[k' v'] d IH]; simpl.
  - intuition.
  - destruct (String.eqb k k') eqn:E; simpl; intuition.
Qed.

Lemma dict_keys_update d other k0 :
  In k0 (dict_keys (dict_update d other)) ->
  In k0 (dict_keys d) \/ In k0 (dict_keys other).
Proof.
  unfold dict_update.
  revert d.
  induction other as [|[k v] other IH]; simpl; intros d H.
  - now left.
  - apply IH in H. destruct H as [H|H]; [|now auto].
    apply dict_keys_set in H. destruct H as [->|H]; auto.
Qed.

Lemma dict_keys_of_items (items : list (string * V)) k0 :
  In k0 (dict_keys (dict_of_items items)) -> In k0 (map fst items).
Proof.
  unfold dict_of_items. intros H.
  apply dict_keys_update in H. destruct H as [[]|H]. exact H.
Qed.

Lemma dict_pop_set k v d : dict_pop k (dict_set k v d) = dict_pop k d.
Proof.
  unfold dict_pop.
  induction d as [|[k' v'] d IH]; simpl.
  - now rewrite String.eqb_refl.
  - destruct (String.eqb k k') eqn:E; simpl; rewrite E; simpl; congruence.
Qed.

Lemma dict_mem_get k d :
  dict_mem k d = match dict_get k d with Some _ => true | None => false end.
Proof.
  unfold dict_mem.
  induction d as [|[k' v'] d IH]; simpl; auto.
  destruct (String.eqb k k'); auto.
Qed.
End DictFacts.

(** ** The normalizer on a list of dictionaries *)

Section NormalizerFacts.
Variable supply : nat -> string.
Implicit Types (s : nat) (d : dict).

Lemma stamp_from_length s flats :
  List.length (stamp_from supply s flats) = List.length flats.
Proof. revert s; induction flats; simpl; auto. Qed.

Lemma stamp_from_app s a b :
  stamp_from supply s (a ++ b) =
  stamp_from supply s a ++ stamp_from supply (s + List.length a) b.
Proof.
  revert s; induction a as [|f a IH]; simpl; intros s.
  - now rewrite Nat.add_0_r.
  - now rewrite IH, Nat.add_succ_r.
Qed.

Lemma flatten_nested_eq col keys ren d nesteds s :
  flatten_nested supply col keys ren d nesteds s =
  (inr (stamp_from supply s (map (flatten col keys ren d) nesteds)),
   s + List.length nesteds).
Proof.
  revert s; induction nesteds as [|n nesteds IH]; intros s.
  - simpl. unfold ret. now rewrite Nat.add_0_r.
  - simpl. unfold bind, uuid4. rewrite IH. unfold ret.
    now rewrite Nat.add_succ_r.
Qed.

Lemma process_record_dict col keys ren d s :
  process_record supply col keys ren (VDict d) s =
  (inr (stamp_from supply s (map (flatten col keys ren d) (nested_items col d))),
   s + nested_len col d).
Proof.
  unfold process_record, nested_len, nested_items, bind, lift. simpl.
  rewrite dict_mem_get.
  destruct (dict_get col d) as [v|]; simpl.
  - destruct v; simpl; unfold ret; rewrite ?Nat.add_0_r; auto.
    apply flatten_nested_eq.
  - unfold ret. now rewrite Nat.add_0_r.
Qed.

Lemma flattened_length col keys ren records :
  List.length (flattened col keys ren records) =
  list_sum (map (nested_len col) records).
Proof.
  unfold flattened, nested_len.
  induction records as [|d records IH]; simpl; auto.
  now rewrite length_app, length_map, IH.
Qed.

Lemma process_records_dicts col keys ren records s :
  process_records supply col keys ren (map VDict records) s =
  (inr (stamp_from supply s (flattened col keys ren records)),
   s + list_sum (map (nested_len col) records)).
Proof.
  revert s; induction records as [|d records IH]; intros s; simpl.
  - unfold ret. now rewrite Nat.add_0_r.
  - unfold bind. rewrite process_record_dict, IH. unfold ret.
    unfold flattened. simpl.
    rewrite stamp_from_app, length_map.
    f_equal. symmetry. apply Nat.add_assoc.
Qed.

Lemma any_contains_dicts k records :
  any_contains k (map VDict records) = inr (existsb (dict_mem k) records).
Proof.
  induction records as [|d records IH]; simpl; auto.
  destruct (dict_mem k d); auto.
Qed.


Lemma resolve_column_dicts records cn :
  resolve_column (map VDict records) cn =
  match resolved records cn with
  | Some c => inr c
  | None => inl (ValueError (missing_column_message cn))
  end.
Proof.
  unfold resolve_column, resolved, missing_column_message.
  destruct (truthy_column cn) as [c|]; rewrite !any_contains_dicts.
  - destruct (existsb (dict_mem c) records); auto.
  - destruct (existsb (dict_mem "analyst_consensus_output") records); auto.
    destruct (existsb (dict_mem "analyst_outputs") records); auto.
Qed.

Lemma normalize_dicts records cn keys ren s :
  normalize_analyst_output supply (VList (map VDict records)) cn keys ren s =
  match resolved records cn with
  | Some c =>
      (inr (stamp_from supply s (flattened c keys ren records)),
       s + list_sum (map (nested_len c) records))
  | None => (inl (ValueError (missing_column_message cn)), s)
  end.
Proof.
  unfold normalize_analyst_output, bind, lift.
  rewrite resolve_column_dicts.
  destruct (resolved records cn) as [c|]; simpl; auto.
  apply process_records_dicts.
Qed.
End NormalizerFacts.

(** ** The normalizer on any input *)

Section NormalizerOutputs.
Variable supply : nat -> string.


Lemma process_record_outputs col keys ren record s out s' :
  process_record supply col keys ren record s = (inr out, s') ->
  stamped_from supply col keys ren s out s'.
Proof.
  destruct record as [| b | z | str | l | d | o].
  1-3, 7: discriminate.
  - unfold process_record, bind, lift. simpl.
    destruct (is_substring col str); simpl; [discriminate|].
    intros H; injection H as <- <-. exists []. simpl.
    rewrite Nat.add_0_r. auto.
  - unfold process_record, bind, lift. simpl.
    destruct (existsb (eq_str col) l); simpl; [discriminate|].
    intros H; injection H as <- <-. exists []. simpl.
    rewrite Nat.add_0_r. auto.
  - rewrite process_record_dict. intros H; injection H as <- <-.
    eexists. split; [reflexivity|]. split.
    + now rewrite length_map.
    + apply Forall_forall. intros f Hf. apply in_map_iff in Hf.
      destruct Hf as [n [<- _]]. eauto.
Qed.

Lemma process_records_outputs col keys ren data s out s' :
  process_records supply col keys ren data s = (inr out, s') ->
  stamped_from supply col keys ren s out s'.
Proof.
  revert s out s'.
  induction data as [|record data IH]; intros s out s'; simpl.
  - intros H; injection H as <- <-. exists []. simpl.
    rewrite Nat.add_0_r. auto.
  - unfold bind.
    destruct (process_record supply col keys ren record s) as [[e|produced] s1] eqn:E1;
      [discriminate|].
    destruct (process_records supply col keys ren data s1) as [[e|others] s2] eqn:E2;
      [discriminate|].
    intros H; injection H as <- <-.
    apply process_record_outputs in E1. apply IH in E2.
    destruct E1 as (f1 & -> & -> & F1). destruct E2 as (f2 & -> & -> & F2).
    exists (f1 ++ f2). split; [|split].
    + now rewrite stamp_from_app.
    + rewrite length_app. symmetry. apply Nat.add_assoc.
    + apply Forall_app; auto.
Qed.

Lemma normalize_outputs data cn keys ren s out s' :
  normalize_analyst_output supply data cn keys ren s = (inr out, s') ->
  exists col, stamped_from supply col keys ren s out s'.
Proof.
  destruct data; try discriminate.
  unfold normalize_analyst_output, bind, lift.
  destruct (resolve_column items cn) as [e|col]; [discriminate|].
  simpl. intros H. exists col. eapply process_records_outputs; eauto.
Qed.

Lemma stamp_from_ids s flats :
  map (dict_get "signal_id") (stamp_from supply s flats) =
  map (fun i => Some (VStr (supply i))) (seq s (List.length flats)).
Proof.
  revert s; induction flats as [|f flats IH]; intros s; simpl; auto.
  now rewrite IH, dict_get_set_same.
Qed.

Lemma stamp_from_pop s flats :
  map (dict_pop "signal_id") (stamp_from supply s flats) =
  map (dict_pop "signal_id") flats.
Proof.
  revert s; induction flats as [|f flats IH]; intros s; simpl; auto.
  now rewrite IH, dict_pop_set.
Qed.

(** *** The exceptions of the normalizer *)

Lemma any_contains_error k data e :
  any_contains k data = inl e -> e = TypeError.
Proof.
  induction data as [|record data IH]; simpl; [discriminate|].
  destruct record; simpl; try (intros H; injection H as <-; reflexivity).
  - destruct (is_substring k s); [discriminate | exact IH].
  - destruct (existsb (eq_str k) items); [discriminate | exact IH].
  - destruct (dict_mem k entries); [discriminate | exact IH].
Qed.

Lemma resolve_column_error data cn e :
  resolve_column data cn = inl e ->
  e = TypeError \/ e = ValueError (missing_column_message cn).
Proof.
  unfold resolve_column, missing_column_message.
  destruct (truthy_column cn) as [c|].
  - destruct (any_contains c data) as [e'|[|]] eqn:E; intros H;
      try discriminate; injection H as <-; eauto using any_contains_error.
  - destruct (any_contains "analyst_consensus_output" data) as [e'|[|]] eqn:E1.
    + intros H; injection H as <-; eauto using any_contains_error.
    + discriminate.
    + destruct (any_contains "analyst_outputs" data) as [e'|[|]] eqn:E2;
        intros H; try discriminate; injection H as <-;
        eauto using any_contains_error.
Qed.

Lemma process_record_error col keys ren record s e s' :
  process_record supply col keys ren record s = (inl e, s') -> e = TypeError.
Proof.
  destruct record as [| b | z | str | l | d | o].
  1-3, 7: (unfold process_record, bind, lift; simpl; intros H; injection H as <- _;
           reflexivity).
  - unfold process_record, bind, lift. simpl.
    destruct (is_substring col str); simpl; intros H; [|discriminate].
    now injection H as <- _.
  - unfold process_record, bind, lift. simpl.
    destruct (existsb (eq_str col) l); simpl; intros H; [|discriminate].
    now injection H as <- _.
  - rewrite process_record_dict. discriminate.
Qed.

Lemma process_records_error col keys ren data s e s' :
  process_records supply col keys ren data s = (inl e, s') -> e = TypeError.
Proof.
  revert s e s'.
  induction data as [|record data IH]; intros s e s'; simpl; [discriminate|].
  unfold bind.
  destruct (process_record supply col keys ren record s) as [[e1|produced] s1] eqn:E1.
  - intros H; injection H as <- _. eauto using process_record_error.
  - destruct (process_records supply col keys ren data s1) as [[e2|others] s2] eqn:E2.
    + intros H; injection H as <- _. eauto.
    + discriminate.
Qed.

Lemma missing_column_message_not_invalid cn :
  missing_column_message cn <> msg_not_a_list.
Proof.
  unfold missing_column_message.
  destruct (truthy_column cn); discriminate.
Qed.
End NormalizerOutputs.

(** ** Claims about the normalizer *)

Lemma str_of_nat_inj (i j : nat) : str_of_nat i = str_of_nat j -> i = j.
Proof.
  unfold str_of_nat. intros H.
  apply DecimalNat.Unsigned.to_uint_inj.
  assert (E : Some (Nat.to_uint i) = Some (Nat.to_uint j))
    by now rewrite <- !NilEmpty.usu, H.
  now injection E.
Qed.

Lemma demo_supply_inj (i j : nat) :
  Examples.demo_supply i = Examples.demo_supply j -> i = j.
Proof.
  unfold Examples.demo_supply. simpl. intros H.
  injection H as H. now apply str_of_nat_inj.
Qed.

(** C1.  On a list of dictionaries whose nested column resolves (detected
    or supplied), the call returns, and the number of records it returns
    is the sum over the input records of the length of the list found
    under the column, a record where the column is absent or is not a
    list counting for nothing; a record that counts for nothing (an empty
    list for instance) appends no record and draws no identifier. *)
Theorem normalize_output_count
  (supply : nat -> string) (records : list dict) (cn : option string)
  (keys : list string) (ren : option (list (string * string))) (s : nat)
  (col : string) :
  resolve_column (map VDict records) cn = inr col ->
  (exists out,
     normalize_analyst_output supply (VList (map VDict records)) cn keys ren s =
       (inr out, s + list_sum (map (nested_len col) records)) /\
     List.length out = list_sum (map (nested_len col) records)) /\
  (forall r, dict_get col r = Some (VList []) -> nested_len col r = 0) /\
  (forall r s0, nested_len col r = 0 ->
     process_record supply col keys ren (VDict r) s0 = (inr [], s0)).
Proof.
  intros Hcol. rewrite resolve_column_dicts in Hcol.
  split; [|split].
  - rewrite normalize_dicts.
    destruct (resolved records cn) as [c|]; [|discriminate].
    injection Hcol as ->. eexists. split; [reflexivity|].
    now rewrite stamp_from_length, flattened_length.
  - intros r Hr. unfold nested_len, nested_items. now rewrite Hr.
  - intros r s0 Hr. rewrite process_record_dict, Hr, Nat.add_0_r.
    unfold nested_len in Hr. apply length_zero_iff_nil in Hr. now rewrite Hr.
Qed.

Lemma normalize_output_count_witness :
  (exists out,
     normalize_analyst_output Examples.demo_supply
       (VList (map VDict [Examples.article_A1; Examples.article_A2; []]))
       (Some "analyst_outputs") default_keys_to_select None 5 =
       (inr out, 5 + 2) /\
     List.length out = 2) /\
  (forall r, dict_get "analyst_outputs" r = Some (VList []) ->
     nested_len "analyst_outputs" r = 0) /\
  (forall r s0, nested_len "analyst_outputs" r = 0 ->
     process_record Examples.demo_supply "analyst_outputs" default_keys_to_select
       None (VDict r) s0 = (inr [], s0)).
Proof.
  apply (normalize_output_count Examples.demo_supply
           [Examples.article_A1; Examples.article_A2; []]
           (Some "analyst_outputs") default_keys_to_select None 5 "analyst_outputs").
  reflexivity.
Defined.

Lemma selected_keys (keys : list string) (d : dict) (k : string) :
  In k (dict_keys (dict_of_items
          (filter (fun kv => existsb (String.eqb (fst kv)) keys) d))) ->
  In k keys.
Proof.
  intros H. apply dict_keys_of_items in H. apply in_map_iff in H.
  destruct H as [[k' v] [<- H]]. apply filter_In in H. destruct H as [_ H].
  apply existsb_exists in H. destruct H as [k0 [Hin E]].
  apply String.eqb_eq in E. simpl in *. now subst.
Qed.

Lemma flatten_keys col keys ren (d : dict) nested k :
  keys <> [] ->
  In k (dict_keys (flatten col keys ren d nested)) ->
  exists k0, In k0 keys /\ k = renamed ren k0.
Proof.
  intros Hne. unfold flatten.
  destruct keys as [|k1 keys']; [contradiction|].
  set (sel := dict_of_items (filter _ _)).
  assert (Hsel : forall k', In k' (dict_keys sel) -> In k' (k1 :: keys'))
    by (intros k'; apply selected_keys).
  destruct ren as [[|p m]|]; simpl renamed.
  - intros H. exists k. auto.
  - intros H. apply dict_keys_of_items in H. rewrite map_map in H.
    apply in_map_iff in H. destruct H as [[k' v] [<- H]]. simpl.
    exists k'. split; auto. apply Hsel. unfold dict_keys.
    now apply (in_map fst) in H.
  - intros H. exists k. auto.
Qed.

(** C2 (as amended).  With a non-empty [keys_to_select], every key of
    every returned record is the reserved name [signal_id] or the name
    under which [key_rename_map] puts a member of [keys_to_select] (the
    member itself when the map is absent or does not mention it). *)
Theorem output_keys_selected_then_renamed
  (supply : nat -> string) (data : value) (cn : option string)
  (keys : list string) (ren : option (list (string * string)))
  (s : nat) (out : list dict) (s' : nat) :
  keys <> [] ->
  normalize_analyst_output supply data cn keys ren s = (inr out, s') ->
  keys_within (fun k => exists k0, In k0 keys /\ k = renamed ren k0) out.
Proof.
  intros Hne H. apply normalize_outputs in H.
  destruct H as (col & flats & -> & _ & F).
  intros r k Hr Hk. clear s'.
  revert s Hr. induction F as [|f flats Hf F IH]; intros s Hr; simpl in Hr.
  - contradiction.
  - destruct Hr as [<-|Hr]; [|eauto].
    apply dict_keys_set in Hk. destruct Hk as [->|Hk]; [now left|right].
    destruct Hf as (d & nested & ->). eapply flatten_keys; eauto.
Qed.

Lemma output_keys_selected_then_renamed_witness :
  keys_within
    (fun k => exists k0, In k0 default_keys_to_select /\
                         k = renamed (Some [("pair", "symbol")]) k0)
    [ [("article_db_id", VStr "A1"); ("symbol", VStr "BTC/USD");
       ("category_name", VStr "x"); ("signal_id", VStr "uuid-0")];
      [("article_db_id", VStr "A1"); ("symbol", VStr "BTC/USD");
       ("category_name", VStr "y"); ("signal_id", VStr "uuid-1")] ].
Proof.
  apply (output_keys_selected_then_renamed Examples.demo_supply
           (VList [VDict Examples.article_A1]) None default_keys_to_select
           (Some [("pair", "symbol")]) 0 _ 2).
  - discriminate.
  - reflexivity.
Defined.

(** C2 as stated fails: with the default keys and a map that renames
    [pair] to [symbol], the returned records have the key [symbol], which
    is neither a member of [keys_to_select] nor the reserved name. *)
Lemma output_keys_not_within_selection :
  exists out,
    fst (normalize_analyst_output Examples.demo_supply
           (VList [VDict Examples.article_A1]) None default_keys_to_select
           (Some [("pair", "symbol")]) 0) = inr out /\
    default_keys_to_select <> [] /\
    ~ keys_within (fun k => In k default_keys_to_select) out.
Proof.
  eexists. split; [vm_compute; reflexivity|]. split; [discriminate|].
  intros H.
  specialize (H _ "symbol" (or_introl eq_refl)).
  destruct H as [H|H].
  - simpl. auto.
  - discriminate.
  - simpl in H. repeat (destruct H as [H|H]; [discriminate|]). exact H.
Qed.

(** C4.  With a generator that never returns the same identifier twice,
    every record a call returns holds, under [signal_id], the identifier
    of its own draw: the identifiers are those the generator gives from
    its state at the call on, one per record and in order, whatever the
    input, the selected keys and the rename map are (so neither the
    selection nor a rename onto [signal_id] removes or replaces them),
    and no two records of the call hold the same one. *)
Theorem signal_ids_fresh
  (supply : nat -> string) (data : value) (cn : option string)
  (keys : list string) (ren : option (list (string * string)))
  (s : nat) (out : list dict) (s' : nat) :
  (forall i j, supply i = supply j -> i = j) ->
  normalize_analyst_output supply data cn keys ren s = (inr out, s') ->
  s' = s + List.length out /\
  map (dict_get "signal_id") out =
    map (fun i => Some (VStr (supply i))) (seq s (List.length out)) /\
  NoDup (map (dict_get "signal_id") out).
Proof.
  intros Hinj H. apply normalize_outputs in H.
  destruct H as (col & flats & -> & -> & _).
  rewrite stamp_from_length, stamp_from_ids.
  split; [reflexivity|]. split; [reflexivity|].
  apply Injective_map_NoDup; [|apply seq_NoDup].
  intros i j E. injection E as E. auto.
Qed.

Lemma signal_ids_fresh_witness :
  exists out s',
    normalize_analyst_output Examples.demo_supply
      (VList [VDict (("signal_id", VStr "uuid-0") :: Examples.article_A1)]) None
      ("signal_id" :: default_keys_to_select)
      (Some [("article_db_id", "signal_id"); ("category_name", "signal_id")]) 3
      = (inr out, s') /\
    s' = 3 + List.length out /\
    map (dict_get "signal_id") out =
      map (fun i => Some (VStr (Examples.demo_supply i))) (seq 3 (List.length out)) /\
    NoDup (map (dict_get "signal_id") out).
Proof.
  eexists. eexists. split.
  - vm_compute. reflexivity.
  - apply (signal_ids_fresh Examples.demo_supply
             (VList [VDict (("signal_id", VStr "uuid-0") :: Examples.article_A1)]) None
             ("signal_id" :: default_keys_to_select)
             (Some [("article_db_id", "signal_id"); ("category_name", "signal_id")]) 3).
    + exact demo_supply_inj.
    + vm_compute. reflexivity.
Defined.

(** C7.  The call raises the [ValueError] of the input check exactly when
    [data] is not a list: on such an input it raises it at once, no
    identifier drawn and nothing returned; on a list whatever it raises
    is another exception. *)
Theorem invalid_input_exactly_when_not_a_list
  (supply : nat -> string) (data : value) (cn : option string)
  (keys : list string) (ren : option (list (string * string))) (s : nat) :
  match data with
  | VList _ =>
      fst (normalize_analyst_output supply data cn keys ren s)
        <> inl (ValueError msg_not_a_list)
  | _ =>
      normalize_analyst_output supply data cn keys ren s
        = (inl (ValueError msg_not_a_list), s)
  end.
Proof.
  destruct data; try reflexivity.
  unfold normalize_analyst_output, bind, lift.
  destruct (resolve_column items cn) as [e|col] eqn:E; simpl.
  - apply resolve_column_error in E. destruct E as [-> | ->]; [discriminate|].
    intros H. injection H as H.
    now apply missing_column_message_not_invalid in H.
  - destruct (process_records supply col keys ren items s) as [[e|out] s'] eqn:P;
      simpl; [|discriminate].
    apply process_records_error in P. subst e. discriminate.
Qed.

(** C8.  On a list of dictionaries the call raises the [ValueError] of a
    missing column exactly when the column does not resolve: with no
    (non-empty) column name supplied, when neither
    [analyst_consensus_output] nor [analyst_outputs] is a key of any
    record; with a name supplied, when that name is a key of no record.
    It raises it before any identifier is drawn, and when the column
    resolves the call returns. *)
Theorem missing_column_exactly_when_unresolved
  (supply : nat -> string) (records : list dict) (cn : option string)
  (keys : list string) (ren : option (list (string * string))) (s : nat) :
  match resolved records cn with
  | None =>
      normalize_analyst_output supply (VList (map VDict records)) cn keys ren s
        = (inl (ValueError (missing_column_message cn)), s)
  | Some col =>
      exists out s',
        normalize_analyst_output supply (VList (map VDict records)) cn keys ren s
          = (inr out, s')
  end.
Proof.
  rewrite normalize_dicts.
  destruct (resolved records cn); eauto.
Qed.

(** C9.  With no column name supplied and [analyst_consensus_output] a
    key of at least one record, the detection selects
    [analyst_consensus_output], whatever the other records hold; every
    call, from any state of the generator, then returns the flattened
    records of that one column, and a record that does not have the key
    (one that holds only [analyst_outputs], say) appends nothing. *)
Theorem consensus_column_detected_first
  (supply : nat -> string) (records : list dict) (cn : option string)
  (keys : list string) (ren : option (list (string * string))) :
  truthy_column cn = None ->
  existsb (dict_mem "analyst_consensus_output") records = true ->
  resolve_column (map VDict records) cn = inr "analyst_consensus_output" /\
  (forall s,
     normalize_analyst_output supply (VList (map VDict records)) cn keys ren s =
     (inr (stamp_from supply s
             (flattened "analyst_consensus_output" keys ren records)),
      s + list_sum (map (nested_len "analyst_consensus_output") records))) /\
  (forall r s,
     dict_mem "analyst_consensus_output" r = false ->
     nested_len "analyst_consensus_output" r = 0 /\
     process_record supply "analyst_consensus_output" keys ren (VDict r) s
       = (inr [], s)).
Proof.
  intros Hcn Hex.
  assert (R : resolved records cn = Some "analyst_consensus_output").
  { unfold resolved. now rewrite Hcn, Hex. }
  split; [|split].
  - now rewrite resolve_column_dicts, R.
  - intros s. now rewrite normalize_dicts, R.
  - intros r s Hr. rewrite dict_mem_get in Hr.
    assert (Z : nested_len "analyst_consensus_output" r = 0).
    { unfold nested_len, nested_items.
      destruct (dict_get "analyst_consensus_output" r); [discriminate|reflexivity]. }
    split; [exact Z|].
    rewrite process_record_dict, Z, Nat.add_0_r.
    unfold nested_len in Z. apply length_zero_iff_nil in Z. now rewrite Z.
Qed.

Lemma consensus_column_detected_first_witness :
  resolve_column (map VDict [Examples.article_A1; Examples.article_A2]) None
    = inr "analyst_consensus_output" /\
  (forall s,
     normalize_analyst_output Examples.demo_supply
       (VList (map VDict [Examples.article_A1; Examples.article_A2])) None
       default_keys_to_select None s =
     (inr (stamp_from Examples.demo_supply s
             (flattened "analyst_consensus_output" default_keys_to_select None
                [Examples.article_A1; Examples.article_A2])),
      s + list_sum (map (nested_len "analyst_consensus_output")
                      [Examples.article_A1; Examples.article_A2]))) /\
  (forall r s,
     dict_mem "analyst_consensus_output" r = false ->
     nested_len "analyst_consensus_output" r = 0 /\
     process_record Examples.demo_supply "analyst_consensus_output"
       default_keys_to_select None (VDict r) s = (inr [], s)).
Proof.
  apply (consensus_column_detected_first Examples.demo_supply
           [Examples.article_A1; Examples.article_A2] None
           default_keys_to_select None); reflexivity.
Defined.

(** The call of the previous witness returns the one record of
    [article_A2]; the two items of [article_A1] are left out. *)
Example consensus_column_example :
  normalize_analyst_output Examples.demo_supply
    (VList (map VDict [Examples.article_A1; Examples.article_A2])) None
    default_keys_to_select None 0 =
  (inr [[("article_db_id", VStr "A2"); ("category_name", VStr "z");
         ("signal_id", VStr "uuid-0")]], 1).
Proof. reflexivity. Qed.

(** ** Claims about the tailer and the driver *)

Section ProcessorFacts.
Context {T : Type}.
Variable db : Storage T.

Lemma consume_trace (s : stream) (st : state T) :
  exists tr, trace (fst (consume db s st)) = trace st ++ tr.
Proof.
  revert st. induction s as [| e | change rest IH]; intros st; simpl.
  - exists []. now rewrite app_nil_r.
  - exists []. now rewrite app_nil_r.
  - destruct (py_getitem change "operationType") as [e|op]; simpl.
    { exists []. now rewrite app_nil_r. }
    destruct (eq_str "insert" op); [|apply IH].
    destruct (py_getitem change "fullDocument") as [e|doc]; simpl.
    { exists []. now rewrite app_nil_r. }
    destruct (target_insert_one db _ doc) as [t [e|]].
    + destruct e; simpl; try (eexists; reflexivity).
      match goal with
      | |- context [consume db rest ?st'] => destruct (IH st') as [tr E]
      end.
      rewrite E. simpl. rewrite <- !app_assoc. eexists; reflexivity.
    + match goal with
      | |- context [consume db rest ?st'] => destruct (IH st') as [tr E]
      end.
      rewrite E. simpl. rewrite <- !app_assoc. eexists; reflexivity.
Qed.

(** A storage error of one insert leaves the loop with the error: the
    notifications behind it are not looked at. *)
Lemma consume_storage_error (document : value) (rest : stream) (st : state T) t m :
  target_insert_one db (target st) document = (t, Some (PyMongoError m)) ->
  consume db (StreamNext (Examples.insert_notification document) rest) st =
  (set_target t (emit (InsertOne document) st), Some (PyMongoError m)).
Proof. simpl. intros ->. reflexivity. Qed.

(** A [ValueError] of one insert is printed and the loop goes on. *)
Lemma consume_value_error (document : value) (rest : stream) (st : state T) t m :
  target_insert_one db (target st) document = (t, Some (ValueError m)) ->
  consume db (StreamNext (Examples.insert_notification document) rest) st =
  consume db rest
    (print ("Insertion error: " ++ m) (set_target t (emit (InsertOne document) st))).
Proof. simpl. intros ->. reflexivity. Qed.

Lemma start_change_stream_trace (st : state T) :
  client_open (fst (start_change_stream db st)) = false /\
  exists tr,
    trace (fst (start_change_stream db st)) =
    trace st ++ [Print "Listening for new changes..."; Watch] ++ tr
      ++ [Close; Print "Connection closed."].
Proof.
  unfold start_change_stream.
  set (st0 := emit Watch (print "Listening for new changes..." st)).
  assert (E0 : trace st0 = trace st ++ [Print "Listening for new changes..."; Watch]).
  { simpl. now rewrite <- app_assoc. }
  clearbody st0.
  assert (H : exists tr, trace (fst (match source_watch db with
                                     | inl e => (st0, Some e)
                                     | inr s => consume db s st0
                                     end)) = trace st0 ++ tr).
  { destruct (source_watch db) as [e|s].
    - exists []. simpl. now rewrite app_nil_r.
    - apply consume_trace. }
  destruct (match source_watch db with
            | inl e => (st0, Some e)
            | inr s => consume db s st0
            end) as [st1 raised].
  destruct H as [tr H]. simpl in H.
  destruct raised as [[]|]; simpl; (split; [reflexivity|]);
    rewrite H, E0, <- ?app_assoc; simpl; eexists;
    try reflexivity.
  instantiate (1 := tr ++ [Print ("Error occurred during change stream: " ++ msg)]).
  now rewrite <- app_assoc.
Qed.
End ProcessorFacts.

(** C6.  However the tail phase ends (the stream is exhausted, the
    subscription or an insert raises a storage error, which is printed,
    or anything else raises and propagates), the method leaves with the
    client closed: the call of [close] and the line that reports it are
    the last two things it does. *)
Theorem connection_closed_on_every_exit
  (T : Type) (db : Storage T) (st : state T) :
  client_open (fst (start_change_stream db st)) = false /\
  exists tr,
    trace (fst (start_change_stream db st)) =
    trace st ++ [Print "Listening for new changes..."; Watch] ++ tr
      ++ [Close; Print "Connection closed."].
Proof. apply start_change_stream_trace. Qed.

(** C3 (the code at a failing input).  The target already holds [doc1];
    the stream delivers the insert of [doc1], then the insert of [doc2].
    The first insert raises a duplicate key error, a [PyMongoError]: the
    handler around [insert_one] is for [ValueError] and lets it through,
    the handler of the whole stream takes it, and the method returns
    without having looked at the second notification. *)
Theorem insert_failure_ends_the_tail :
  start_change_stream Examples.two_inserts (initial [Examples.doc1]) =
  ({| target := [Examples.doc1];
      client_open := false;
      uuids_drawn := 0;
      trace := [ Print "Listening for new changes..."; Watch;
                 InsertOne Examples.doc1;
                 Print "Error occurred during change stream: E11000 duplicate key error";
                 Close; Print "Connection closed." ] |},
   None).
Proof. reflexivity. Qed.

(** C5 (as amended).  When the bulk insert of the backfill fails with a
    storage error, [process_existing_data] catches it: it prints the
    error, as the line after its call to [insert_many], and returns
    normally; the driver then goes on to the tail phase, and the tailer
    is started: what the run does next is to announce that it listens
    and to call [watch()], and it ends by closing the client. *)
Theorem tailer_started_after_failed_backfill
  (T : Type) (supply : nat -> string) (db : Storage T) (st : state T)
  (documents : list value) (data : list dict) (n : nat) (t : T) (m : string) :
  source_find db = inr documents ->
  normalize_analyst_output supply (VList documents) None
    default_keys_to_select None (uuids_drawn st) = (inr data, n) ->
  target_insert_many db (target st) (map VDict data) = (t, Some (PyMongoError m)) ->
  snd (process_existing_data supply db st) = None /\
  trace (fst (process_existing_data supply db st)) =
    trace st ++ [ Print "Processing existing data..."; Find;
                  InsertMany (map VDict data);
                  Print ("Error occurred during insert_many: " ++ m) ] /\
  exists tr,
    trace (fst (run supply db st)) =
      trace st ++ [ Print "Processing existing data..."; Find;
                    InsertMany (map VDict data);
                    Print ("Error occurred during insert_many: " ++ m);
                    Print "Listening for new changes..."; Watch ]
               ++ tr ++ [Close; Print "Connection closed."] /\
    tailer_started
      ([ Print "Processing existing data..."; Find;
         InsertMany (map VDict data);
         Print ("Error occurred during insert_many: " ++ m);
         Print "Listening for new changes..."; Watch ]
       ++ tr ++ [Close; Print "Connection closed."]).
Proof.
  intros Hfind Hnorm Hins.
  unfold run, process_existing_data.
  rewrite Hfind.
  cbn -[normalize_analyst_output start_change_stream default_keys_to_select].
  rewrite Hnorm.
  cbn -[normalize_analyst_output start_change_stream default_keys_to_select].
  rewrite Hins.
  cbn -[normalize_analyst_output start_change_stream default_keys_to_select].
  split; [reflexivity|]. split.
  { now rewrite <- !app_assoc. }
  match goal with
  | |- context [start_change_stream db ?st'] =>
      destruct (start_change_stream_trace db st') as [_ [tr E]]
  end.
  exists tr. split.
  - rewrite E.
    cbn [trace emit print set_target set_uuids_drawn].
    now rewrite <- !app_assoc.
  - unfold tailer_started. simpl. auto 10.
Qed.

Lemma tailer_started_after_failed_backfill_witness :
  snd (process_existing_data Examples.demo_supply Examples.unreachable_target
         (initial [])) = None /\
  trace (fst (process_existing_data Examples.demo_supply Examples.unreachable_target
                (initial []))) =
    [] ++ [ Print "Processing existing data..."; Find;
            InsertMany (map VDict
              (stamp_from Examples.demo_supply 0
                 (flattened "analyst_outputs" default_keys_to_select None
                    [Examples.article_A1])));
            Print ("Error occurred during insert_many: " ++ "connection closed") ] /\
  exists tr,
    trace (fst (run Examples.demo_supply Examples.unreachable_target (initial []))) =
      [] ++ [ Print "Processing existing data..."; Find;
              InsertMany (map VDict
                (stamp_from Examples.demo_supply 0
                   (flattened "analyst_outputs" default_keys_to_select None
                      [Examples.article_A1])));
              Print ("Error occurred during insert_many: " ++ "connection closed");
              Print "Listening for new changes..."; Watch ]
         ++ tr ++ [Close; Print "Connection closed."] /\
    tailer_started
      ([ Print "Processing existing data..."; Find;
         InsertMany (map VDict
           (stamp_from Examples.demo_supply 0
              (flattened "analyst_outputs" default_keys_to_select None
                 [Examples.article_A1])));
         Print ("Error occurred during insert_many: " ++ "connection closed");
         Print "Listening for new changes..."; Watch ]
       ++ tr ++ [Close; Print "Connection closed."]).
Proof.
  apply (tailer_started_after_failed_backfill (list value) Examples.demo_supply
           Examples.unreachable_target (initial []) [VDict Examples.article_A1]
           (stamp_from Examples.demo_supply 0
              (flattened "analyst_outputs" default_keys_to_select None
                 [Examples.article_A1]))
           2 [] "connection closed"); reflexivity.
Defined.

(** C5 as stated fails: here the bulk insert of the backfill raises a
    storage error, and the run goes on to open the change stream and to
    copy the document it delivers. *)
Lemma failed_backfill_does_not_stop_the_run :
  backfill_write_fails Examples.demo_supply Examples.unreachable_target (initial []) /\
  tailer_started
    (trace (fst (run Examples.demo_supply Examples.unreachable_target (initial [])))) /\
  target (fst (run Examples.demo_supply Examples.unreachable_target (initial [])))
    = [Examples.doc2].
Proof.
  split; [|split].
  - do 5 eexists. split; [reflexivity|]. split; reflexivity.
  - vm_compute. do 5 right. left. reflexivity.
  - reflexivity.
Qed.

(** ** Claim about [determine_exchange] *)

Lemma max_from_in {A : Type} (key : A -> Q) (best : A) (xs : list A) :
  In (max_from key best xs) (best :: xs).
Proof.
  revert best. induction xs as [|x xs IH]; intros best; simpl.
  - now left.
  - destruct (Qle_bool (key x) (key best)).
    + destruct (IH best) as [H|H]; simpl in *; auto.
    + destruct (IH x) as [H|H]; simpl in *; auto.
Qed.

Lemma py_max_in {A : Type} (key : A -> Q) (xs : list A) (m : A) :
  py_max key xs = Some m -> In m xs.
Proof.
  destruct xs as [|x xs]; simpl; [discriminate|].
  intros H. injection H as <-. apply max_from_in.
Qed.

Lemma existsb_eqb_in (q : string) (xs : list string) :
  In q xs -> existsb (String.eqb q) xs = true.
Proof.
  intros H. apply existsb_exists. exists q. split; auto. apply String.eqb_refl.
Qed.

Lemma upper_char_idempotent (c : ascii) : upper_char (upper_char c) = upper_char c.
Proof. destruct c as [[] [] [] [] [] [] [] []]; reflexivity. Qed.

Lemma upper_ascii_idempotent (s : string) : upper_ascii (upper_ascii s) = upper_ascii s.
Proof.
  induction s as [|c s IH]; simpl; auto.
  now rewrite upper_char_idempotent, IH.
Qed.

Section DetermineExchangeFacts.
Variable upper : string -> string.
Variable ratio : string -> string -> Q.
Hypothesis upper_idempotent : forall s, upper (upper s) = upper s.

#[local] Abbreviation determine := (determine_exchange upper ratio).

#[local] Abbreviation codes := (base_codes upper).
#[local] Abbreviation known := (base_known upper).

Lemma determine_exchange_step fuel df BASE QUOTE :
  determine (S fuel) df BASE QUOTE =
  if negb (known df BASE) then Some (inr (VStr message_no_base))
  else match QUOTE with
       | None => determine fuel df (upper BASE) (Some "USD")
       | Some q =>
           if existsb (String.eqb q) (codes df BASE)
           then Some (inr (VList (map VDict
                  (generate_trading_urls upper (upper BASE) q
                     (filter (fun r => String.eqb (Base r) (upper BASE)) df)))))
           else match py_max (fun x => ratio q x) (codes df BASE) with
                | None => Some (inl (ValueError "max() arg is an empty sequence"))
                | Some m => determine fuel df (upper BASE) (Some m)
                end
       end.
Proof. reflexivity. Qed.

(** A quote that is among the codes of the base is answered by the call
    itself. *)
Lemma determine_exchange_present df BASE q :
  existsb (String.eqb q) (codes df BASE) = true ->
  exists r, forall fuel, 1 <= fuel -> determine fuel df BASE (Some q) = Some r.
Proof.
  intros Hq.
  destruct (known df BASE) eqn:K.
  - eexists. intros [|fuel] Hf; [lia|].
    rewrite determine_exchange_step, K, Hq. reflexivity.
  - eexists. intros [|fuel] Hf; [lia|].
    rewrite determine_exchange_step, K. reflexivity.
Qed.

(** With a quote, the call makes at most one nested call. *)
Lemma determine_exchange_quote df BASE q :
  exists r, forall fuel, 2 <= fuel -> determine fuel df BASE (Some q) = Some r.
Proof.
  destruct (known df BASE) eqn:K.
  2:{ eexists. intros [|fuel] Hf; [lia|].
      rewrite determine_exchange_step, K. reflexivity. }
  destruct (existsb (String.eqb q) (codes df BASE)) eqn:Hq.
  { eexists. intros [|fuel] Hf; [lia|].
    rewrite determine_exchange_step, K, Hq. reflexivity. }
  destruct (py_max (fun x => ratio q x) (codes df BASE)) as [m|] eqn:Hm.
  2:{ eexists. intros [|fuel] Hf; [lia|].
      rewrite determine_exchange_step, K, Hq, Hm. reflexivity. }
  destruct (determine_exchange_present df (upper BASE) m) as [r Hr].
  { apply existsb_eqb_in. apply py_max_in in Hm.
    unfold base_codes in *. now rewrite upper_idempotent. }
  exists r. intros [|fuel] Hf; [lia|].
  rewrite determine_exchange_step, K, Hq, Hm. apply Hr. lia.
Qed.

Lemma determine_exchange_any df BASE QUOTE :
  exists r, forall fuel, 3 <= fuel -> determine fuel df BASE QUOTE = Some r.
Proof.
  destruct QUOTE as [q|].
  - destruct (determine_exchange_quote df BASE q) as [r Hr].
    exists r. intros fuel Hf. apply Hr. lia.
  - destruct (known df BASE) eqn:K.
    + destruct (determine_exchange_quote df (upper BASE) "USD") as [r Hr].
      exists r. intros [|fuel] Hf; [lia|].
      rewrite determine_exchange_step, K. apply Hr. lia.
    + eexists. intros [|fuel] Hf; [lia|].
      rewrite determine_exchange_step, K. reflexivity.
Qed.
End DetermineExchangeFacts.

(** C10.  [determine_exchange] returns on every input, and a depth of
    three nested calls is always enough: the call without a quote calls
    itself with [USD], the call with a quote that is not among the codes
    of the base calls itself with the most similar of those codes, and
    that call answers by itself.  ([upper] is [str.upper], of which only
    [upper (upper s) = upper s] is used; [ratio] is difflib's.) *)
Theorem determine_exchange_terminates
  (upper : string -> string) (ratio : string -> string -> Q)
  (df_cleaned : list row) (BASE : string) (QUOTE : option string) :
  (forall s, upper (upper s) = upper s) ->
  exists r, forall fuel, 3 <= fuel ->
    determine_exchange upper ratio fuel df_cleaned BASE QUOTE = Some r.
Proof. intros H. now apply determine_exchange_any. Qed.

Lemma determine_exchange_terminates_witness :
  exists r, forall fuel, 3 <= fuel ->
    determine_exchange upper_ascii Examples.prefix_ratio fuel
      Examples.tv_symbols "btc" None = Some r.
Proof.
  apply (determine_exchange_terminates upper_ascii Examples.prefix_ratio
           Examples.tv_symbols "btc" None).
  exact upper_ascii_idempotent.
Defined.

(** The bound is reached: on [tv_symbols], base [btc] and no quote, two
    nested calls are not enough and the third call answers. *)
Example determine_exchange_three_calls :
  determine_exchange upper_ascii Examples.prefix_ratio 2
    Examples.tv_symbols "btc" None = None /\
  determine_exchange upper_ascii Examples.prefix_ratio 3
    Examples.tv_symbols "btc" None =
  Some (inr (VList [VDict
    [ ("base_currency", VStr "BTC"); ("quote_currency", VStr "USDT");
      ("exchange", VStr "Binance");
      ("url", VStr "https://s.tradingview.com/widgetembed/?frameElementId=tradingview_abc&symbol=BINANCE:BTCUSDT&interval=60&theme=dark") ]])).
Proof. split; reflexivity. Qed.

(** * Further properties of the code *)

(** ** Lookups in the dictionaries the normalizer builds *)

Section DictLookup.
Context {V : Type}.
Implicit Types (d n : list (string * V)) (k : string) (v : V).

Lemma dict_get_set_other k k' v d :
  k <> k' -> dict_get k (dict_set k' v d) = dict_get k d.
Proof.
  intros Hne. induction d as [|[k0 v0] d IH]; simpl.
  - apply String.eqb_neq in Hne. now rewrite Hne.
  - destruct (String.eqb k' k0) eqn:E; simpl.
    + apply String.eqb_eq in E. subst k0.
      apply String.eqb_neq in Hne. now rewrite Hne.
    + now rewrite IH.
Qed.

Lemma dict_get_pop k k' d :
  dict_get k (dict_pop k' d) = if String.eqb k k' then None else dict_get k d.
Proof.
  unfold dict_pop. induction d as [|[k0 v0] d IH]; simpl.
  - now destruct (String.eqb k k').
  - destruct (String.eqb k' k0) eqn:E; simpl.
    + apply String.eqb_eq in E. subst k0. rewrite IH.
      now destruct (String.eqb k k').
    + rewrite IH. destruct (String.eqb k k0) eqn:E0; auto.
      apply String.eqb_eq in E0. subst k0.
      rewrite String.eqb_sym in E. now rewrite E.
Qed.

Lemma dict_get_absent k d : ~ In k (dict_keys d) -> dict_get k d = None.
Proof.
  unfold dict_keys. induction d as [|[k0 v0] d IH]; simpl; auto.
  intros H. destruct (String.eqb k k0) eqn:E.
  - apply String.eqb_eq in E. subst. tauto.
  - apply IH. tauto.
Qed.

Lemma dict_keys_set_eq k v d :
  dict_keys (dict_set k v d) =
  if dict_mem k d then dict_keys d else dict_keys d ++ [k].
Proof.
  unfold dict_keys, dict_mem. induction d as [|[k0 v0] d IH]; simpl; auto.
  destruct (String.eqb k k0) eqn:E; simpl; auto.
  rewrite IH. now destruct (existsb _ d).
Qed.

Lemma dict_mem_false k d : dict_mem k d = false -> ~ In k (dict_keys d).
Proof.
  unfold dict_mem, dict_keys. intros H Hin.
  apply in_map_iff in Hin. destruct Hin as [[k0 v0] [E Hin]]. simpl in E. subst k0.
  assert (X : existsb (fun kv => String.eqb k (fst kv)) d = true).
  { apply existsb_exists. exists (k, v0). split; auto. apply String.eqb_refl. }
  congruence.
Qed.

Lemma NoDup_dict_set k v d :
  NoDup (dict_keys d) -> NoDup (dict_keys (dict_set k v d)).
Proof.
  intros H. rewrite dict_keys_set_eq.
  destruct (dict_mem k d) eqn:E; auto.
  apply dict_mem_false in E.
  apply NoDup_app; auto.
  - constructor; [simpl; tauto | constructor].
  - intros x Hx [<-|[]]. tauto.
Qed.

Lemma NoDup_dict_update d n :
  NoDup (dict_keys d) -> NoDup (dict_keys (dict_update d n)).
Proof.
  unfold dict_update. revert d.
  induction n as [|[k v] n IH]; simpl; intros d H; auto.
  apply IH. now apply NoDup_dict_set.
Qed.

Lemma dict_get_update k d n :
  NoDup (dict_keys n) ->
  dict_get k (dict_update d n) =
  match dict_get k n with
  | Some v => Some v
  | None => dict_get k d
  end.
Proof.
  unfold dict_update. revert d.
  induction n as [|[k0 v0] n IH]; simpl; intros d H; auto.
  inversion H as [|? ? Hnotin Hn]; subst.
  rewrite (IH _ Hn).
  destruct (String.eqb k k0) eqn:E.
  - apply String.eqb_eq in E. subst k0.
    rewrite (dict_get_absent _ _ Hnotin). apply dict_get_set_same.
  - apply String.eqb_neq in E. now rewrite dict_get_set_other.
Qed.

Lemma dict_get_of_items k (items : list (string * V)) :
  NoDup (map fst items) -> dict_get k (dict_of_items items) = dict_get k items.
Proof.
  intros H. unfold dict_of_items. rewrite dict_get_update by exact H.
  now destruct (dict_get k items).
Qed.

Lemma dict_get_filter (p : string -> bool) k d :
  dict_get k (filter (fun kv => p (fst kv)) d) =
  if p k then dict_get k d else None.
Proof.
  induction d as [|[k0 v0] d IH]; simpl.
  - now destruct (p k).
  - destruct (p k0) eqn:P; simpl.
    + destruct (String.eqb k k0) eqn:E; auto.
      apply String.eqb_eq in E. subst. now rewrite P.
    + rewrite IH. destruct (String.eqb k k0) eqn:E; auto.
      apply String.eqb_eq in E. subst. now rewrite P.
Qed.

Lemma NoDup_keys_filter (f : string * V -> bool) d :
  NoDup (dict_keys d) -> NoDup (dict_keys (filter f d)).
Proof.
  unfold dict_keys. induction d as [|[k0 v0] d IH]; simpl; intros H; auto.
  inversion H as [|? ? Hnotin Hd]; subst.
  destruct (f (k0, v0)); simpl; auto.
  constructor; auto.
  intros Hin. apply Hnotin. apply in_map_iff in Hin.
  destruct Hin as [kv [E Hin]]. apply filter_In in Hin.
  apply in_map_iff. exists kv. tauto.
Qed.
End DictLookup.

Lemma flatten_lookup col keys (d : dict) nested k :
  NoDup (dict_keys d) -> unique_keys nested ->
  dict_get k (flatten col keys None d nested) = overlay_lookup col keys d nested k.
Proof.
  intros Hd Hn. unfold flatten, overlay_lookup.
  set (f0 := dict_pop "_id" (dict_pop col d)).
  assert (N0 : NoDup (dict_keys f0)).
  { unfold f0, dict_pop. now do 2 apply NoDup_keys_filter. }
  assert (G0 : dict_get k f0 =
               if String.eqb k col || String.eqb k "_id" then None else dict_get k d).
  { unfold f0. rewrite !dict_get_pop.
    destruct (String.eqb k "_id"), (String.eqb k col); reflexivity. }
  set (f1 := match nested with
             | VDict n => dict_update f0 n
             | _ => f0
             end).
  assert (N1 : NoDup (dict_keys f1)).
  { unfold f1. destruct nested; auto. now apply NoDup_dict_update. }
  assert (G1 : dict_get k f1 =
               match (match nested with VDict n => dict_get k n | _ => None end) with
               | Some v => Some v
               | None => if String.eqb k col || String.eqb k "_id" then None
                         else dict_get k d
               end).
  { unfold f1. destruct nested; try exact G0.
    simpl in Hn. rewrite dict_get_update by exact Hn. now rewrite G0. }
  clearbody f1. clear f0 N0 G0.
  destruct keys as [|k1 keys'].
  - exact G1.
  - rewrite dict_get_of_items.
    + rewrite (dict_get_filter (fun k => existsb (String.eqb k) (k1 :: keys'))).
      destruct (existsb (String.eqb k) (k1 :: keys')); auto.
    + now apply NoDup_keys_filter.
Qed.

Lemma In_stamp_from supply s flats (r : dict) :
  In r (stamp_from supply s flats) ->
  exists f n, In f flats /\ r = dict_set "signal_id" (VStr (supply n)) f.
Proof.
  revert s. induction flats as [|f flats IH]; simpl; intros s H; [contradiction|].
  destruct H as [<-|H].
  - eauto.
  - destruct (IH _ H) as (f' & n & Hin & E). eauto.
Qed.

(** ** The normalizer: what the records hold, and batches *)

(** X1.  With a column name given, normalizing two batches one after the
    other and normalizing them as one list give the same records with the
    same identifiers. *)
Theorem normalize_batches_compose
  (supply : nat -> string) (rs1 rs2 : list dict) (c : string)
  (keys : list string) (ren : option (list (string * string)))
  (s s1 s2 : nat) (o1 o2 : list dict) :
  c <> "" ->
  normalize_analyst_output supply (VList (map VDict rs1)) (Some c) keys ren s
    = (inr o1, s1) ->
  normalize_analyst_output supply (VList (map VDict rs2)) (Some c) keys ren s1
    = (inr o2, s2) ->
  normalize_analyst_output supply (VList (map VDict (rs1 ++ rs2))) (Some c) keys ren s
    = (inr (o1 ++ o2), s2).
Proof.
  intros Hc H1 H2. apply String.eqb_neq in Hc.
  assert (R : forall rs, resolved rs (Some c) =
                         if existsb (dict_mem c) rs then Some c else None).
  { intros rs. unfold resolved, truthy_column. now rewrite Hc. }
  rewrite normalize_dicts, R in H1, H2.
  destruct (existsb (dict_mem c) rs1) eqn:E1; [|discriminate].
  destruct (existsb (dict_mem c) rs2) eqn:E2; [|discriminate].
  injection H1 as <- <-. injection H2 as <- <-.
  assert (R12 : resolved (rs1 ++ rs2) (Some c) = Some c).
  { rewrite R. replace (existsb (dict_mem c) (rs1 ++ rs2)) with true; auto.
    symmetry. apply existsb_exists. apply existsb_exists in E1.
    destruct E1 as [x [Hx Px]]. exists x. split; auto. apply in_or_app. now left. }
  rewrite normalize_dicts, R12.
  assert (F : flattened c keys ren (rs1 ++ rs2) =
              flattened c keys ren rs1 ++ flattened c keys ren rs2).
  { unfold flattened. apply flat_map_app. }
  rewrite F, stamp_from_app, map_app, list_sum_app, flattened_length.
  now rewrite Nat.add_assoc.
Qed.

Lemma normalize_batches_compose_witness :
  normalize_analyst_output Examples.demo_supply
    (VList (map VDict ([Examples.article_A1] ++ [Examples.article_A1; Examples.article_A2])))
    (Some "analyst_outputs") default_keys_to_select None 0
  = (inr (stamp_from Examples.demo_supply 0
            (flattened "analyst_outputs" default_keys_to_select None
               [Examples.article_A1])
          ++ stamp_from Examples.demo_supply 2
            (flattened "analyst_outputs" default_keys_to_select None
               [Examples.article_A1; Examples.article_A2])), 4).
Proof.
  apply (normalize_batches_compose Examples.demo_supply
           [Examples.article_A1] [Examples.article_A1; Examples.article_A2]
           "analyst_outputs" default_keys_to_select None 0 2 4).
  - discriminate.
  - reflexivity.
  - reflexivity.
Defined.

(** X2.  When the records and their nested dicts have pairwise different
    keys and no key is renamed, every returned record comes from a parent
    record and one of its nested items, and holds under each key other
    than [signal_id]: the value of the nested item if it has the key,
    else the value of the parent, except that the nested column and
    [_id] of the parent are dropped; and nothing under a key outside a
    non-empty [keys_to_select]. *)
Theorem output_values_overlay
  (supply : nat -> string) (records : list dict) (cn : option string)
  (keys : list string) (s : nat) (col : string) :
  resolve_column (map VDict records) cn = inr col ->
  Forall (fun d => NoDup (dict_keys d) /\ Forall unique_keys (nested_items col d))
         records ->
  exists out s',
    normalize_analyst_output supply (VList (map VDict records)) cn keys None s
      = (inr out, s') /\
    forall r, In r out ->
      exists d nested,
        In d records /\ In nested (nested_items col d) /\
        forall k, k <> "signal_id" ->
          dict_get k r = overlay_lookup col keys d nested k.
Proof.
  intros Hcol Hwf. rewrite resolve_column_dicts in Hcol.
  rewrite normalize_dicts.
  destruct (resolved records cn) as [c|]; [|discriminate].
  injection Hcol as ->.
  eexists. eexists. split; [reflexivity|].
  intros r Hr. apply In_stamp_from in Hr. destruct Hr as (f & n & Hf & ->).
  unfold flattened in Hf. apply in_flat_map in Hf.
  destruct Hf as (d & Hd & Hf). apply in_map_iff in Hf.
  destruct Hf as (nested & <- & Hnested).
  exists d, nested. split; [exact Hd|]. split; [exact Hnested|].
  intros k Hk. rewrite dict_get_set_other by exact Hk.
  rewrite Forall_forall in Hwf. destruct (Hwf d Hd) as [Nd Nn].
  rewrite Forall_forall in Nn.
  apply flatten_lookup; auto.
Qed.

Lemma output_values_overlay_witness :
  exists out s',
    normalize_analyst_output Examples.demo_supply
      (VList (map VDict [Examples.article_A1; Examples.article_A2])) (Some "analyst_outputs")
      default_keys_to_select None 0 = (inr out, s') /\
    forall r, In r out ->
      exists d nested,
        In d [Examples.article_A1; Examples.article_A2] /\
        In nested (nested_items "analyst_outputs" d) /\
        forall k, k <> "signal_id" ->
          dict_get k r = overlay_lookup "analyst_outputs" default_keys_to_select d nested k.
Proof.
  apply (output_values_overlay Examples.demo_supply
           [Examples.article_A1; Examples.article_A2] (Some "analyst_outputs")
           default_keys_to_select 0 "analyst_outputs").
  - reflexivity.
  - repeat constructor; simpl; intuition discriminate.
Defined.

(** ** The backfill and the driver *)

Lemma normalize_error supply data cn keys ren s e s' :
  normalize_analyst_output supply data cn keys ren s = (inl e, s') ->
  e = TypeError \/ exists msg, e = ValueError msg.
Proof.
  destruct data;
    try (intros H; injection H as <- _; right; eexists; reflexivity).
  unfold normalize_analyst_output, bind, lift.
  destruct (resolve_column items cn) as [e0|col] eqn:E; simpl.
  - intros H; injection H as <- _.
    apply resolve_column_error in E. destruct E as [->| ->]; eauto.
  - intros H. apply process_records_error in H. now left.
Qed.

Section BackfillFacts.
Context {T : Type}.
Variable supply : nat -> string.
Variable db : Storage T.

Lemma process_existing_data_frame (st : state T) :
  client_open (fst (process_existing_data supply db st)) = client_open st /\
  exists tr,
    trace (fst (process_existing_data supply db st)) = trace st ++ tr /\
    ~ In Watch tr /\ ~ In Close tr.
Proof.
  unfold process_existing_data.
  destruct (source_find db) as [e|documents].
  { split; [reflexivity|]. exists [Print "Processing existing data..."; Find].
    cbn. rewrite <- app_assoc. repeat split; simpl; intuition discriminate. }
  cbn -[normalize_analyst_output default_keys_to_select].
  destruct (normalize_analyst_output supply (VList documents) None
              default_keys_to_select None (uuids_drawn st)) as [[e|data] n].
  { split; [reflexivity|]. exists [Print "Processing existing data..."; Find].
    cbn. rewrite <- app_assoc. repeat split; simpl; intuition discriminate. }
  cbn -[normalize_analyst_output default_keys_to_select].
  destruct (target_insert_many db (target st) (map VDict data)) as [t [e|]].
  - destruct e; (split; [reflexivity|]); cbn; rewrite <- ?app_assoc;
      eexists; (split; [reflexivity|]); simpl; intuition discriminate.
  - split; [reflexivity|]. cbn. rewrite <- ?app_assoc.
    eexists. split; [reflexivity|]. simpl; intuition discriminate.
Qed.

Lemma run_of_raising_backfill (st : state T) e :
  snd (process_existing_data supply db st) = Some e ->
  run supply db st = process_existing_data supply db st.
Proof.
  unfold run. destruct (process_existing_data supply db st) as [st' [e'|]]; simpl.
  - reflexivity.
  - discriminate.
Qed.

Lemma start_change_stream_absorbs (st : state T) m :
  snd (start_change_stream db st) <> Some (PyMongoError m).
Proof.
  unfold start_change_stream.
  destruct (match source_watch db with
            | inl e => (emit Watch (print "Listening for new changes..." st), Some e)
            | inr s => consume db s (emit Watch (print "Listening for new changes..." st))
            end) as [st1 [[]|]]; simpl; discriminate.
Qed.
End BackfillFacts.

(** X3.  When the backfill raises, [run] raises the same exception, and
    what the run did stops there: it has not opened the change stream and
    it has not closed the client, which is as open as it was. *)
Theorem run_stops_when_backfill_raises
  (T : Type) (supply : nat -> string) (db : Storage T) (st : state T) (e : exn) :
  snd (process_existing_data supply db st) = Some e ->
  snd (run supply db st) = Some e /\
  client_open (fst (run supply db st)) = client_open st /\
  exists tr,
    trace (fst (run supply db st)) = trace st ++ tr /\
    ~ In Watch tr /\ ~ In Close tr.
Proof.
  intros H. rewrite (run_of_raising_backfill supply db st e H).
  split; [exact H|]. apply process_existing_data_frame.
Qed.

Lemma run_stops_when_backfill_raises_witness :
  snd (run Examples.demo_supply MoreExamples.find_fails (initial []))
    = Some (PyMongoError "connection refused") /\
  client_open (fst (run Examples.demo_supply MoreExamples.find_fails (initial [])))
    = client_open (initial (T := list value) []) /\
  exists tr,
    trace (fst (run Examples.demo_supply MoreExamples.find_fails (initial [])))
      = trace (initial (T := list value) []) ++ tr /\
    ~ In Watch tr /\ ~ In Close tr.
Proof.
  apply (run_stops_when_backfill_raises (list value) Examples.demo_supply
           MoreExamples.find_fails (initial []) (PyMongoError "connection refused")).
  reflexivity.
Defined.

(** X4.  On a source whose records hold neither recognised column, an
    empty source in particular, the backfill raises the [ValueError] of
    the normalizer right after [find]: nothing is inserted, the run ends
    with that exception and the tailer is not started. *)
Theorem run_raises_without_column
  (T : Type) (supply : nat -> string) (db : Storage T) (st : state T)
  (records : list dict) :
  source_find db = inr (map VDict records) ->
  resolved records None = None ->
  snd (run supply db st) = Some (ValueError msg_neither_found) /\
  trace (fst (run supply db st)) =
    trace st ++ [Print "Processing existing data..."; Find] /\
  target (fst (run supply db st)) = target st /\
  client_open (fst (run supply db st)) = client_open st.
Proof.
  intros Hfind Hres.
  assert (E : process_existing_data supply db st =
              (set_uuids_drawn (uuids_drawn st)
                 (emit Find (print "Processing existing data..." st)),
               Some (ValueError msg_neither_found))).
  { unfold process_existing_data. rewrite Hfind.
    cbn -[normalize_analyst_output default_keys_to_select].
    now rewrite normalize_dicts, Hres. }
  rewrite (run_of_raising_backfill supply db st (ValueError msg_neither_found))
    by now rewrite E.
  rewrite E. cbn. rewrite <- app_assoc. auto.
Qed.

Lemma run_raises_without_column_witness :
  snd (run Examples.demo_supply MoreExamples.empty_source (initial []))
    = Some (ValueError msg_neither_found) /\
  trace (fst (run Examples.demo_supply MoreExamples.empty_source (initial []))) =
    trace (initial (T := list value) [])
      ++ [Print "Processing existing data..."; Find] /\
  target (fst (run Examples.demo_supply MoreExamples.empty_source (initial [])))
    = target (initial []) /\
  client_open (fst (run Examples.demo_supply MoreExamples.empty_source (initial [])))
    = client_open (initial (T := list value) []).
Proof.
  apply (run_raises_without_column (list value) Examples.demo_supply
           MoreExamples.empty_source (initial []) []); reflexivity.
Defined.

(** X5.  When the column resolves but no record has a nested item, the
    backfill calls [insert_many] with an empty list; with a target that
    refuses it with a [TypeError], as pymongo's does, the run ends with
    that [TypeError] and the tailer is not started. *)
Theorem run_raises_on_empty_output
  (T : Type) (supply : nat -> string) (db : Storage T) (st : state T)
  (records : list dict) (col : string) (t : T) :
  source_find db = inr (map VDict records) ->
  resolved records None = Some col ->
  list_sum (map (nested_len col) records) = 0 ->
  target_insert_many db (target st) [] = (t, Some TypeError) ->
  snd (run supply db st) = Some TypeError /\
  trace (fst (run supply db st)) =
    trace st ++ [Print "Processing existing data..."; Find; InsertMany []].
Proof.
  intros Hfind Hres Hsum Hins.
  assert (F : flattened col default_keys_to_select None records = []).
  { apply length_zero_iff_nil. now rewrite flattened_length. }
  assert (E : exists st',
             process_existing_data supply db st = (st', Some TypeError) /\
             trace st' =
               trace st ++ [Print "Processing existing data..."; Find; InsertMany []]).
  { unfold process_existing_data. rewrite Hfind.
    cbn -[normalize_analyst_output default_keys_to_select].
    rewrite normalize_dicts, Hres, F.
    cbn -[default_keys_to_select]. rewrite Hins.
    eexists. split; [reflexivity|]. cbn. now rewrite <- !app_assoc. }
  destruct E as (st' & E & Htr).
  rewrite (run_of_raising_backfill supply db st TypeError) by now rewrite E.
  rewrite E. auto.
Qed.

Lemma run_raises_on_empty_output_witness :
  snd (run Examples.demo_supply MoreExamples.source_without_outputs (initial []))
    = Some TypeError /\
  trace (fst (run Examples.demo_supply MoreExamples.source_without_outputs (initial [])))
    = trace (initial (T := list value) [])
        ++ [Print "Processing existing data..."; Find; InsertMany []].
Proof.
  apply (run_raises_on_empty_output (list value) Examples.demo_supply
           MoreExamples.source_without_outputs (initial [])
           [MoreExamples.no_outputs] "analyst_outputs" []); reflexivity.
Defined.

(** X6.  The only storage error that leaves [run] is one raised by
    [find]: those of the bulk insert and of the tail phase are printed
    and not raised, and the normalizer raises none. *)
Theorem run_raises_storage_error_only_from_find
  (T : Type) (supply : nat -> string) (db : Storage T) (st : state T) (m : string) :
  snd (run supply db st) = Some (PyMongoError m) ->
  source_find db = inl (PyMongoError m).
Proof.
  unfold run.
  destruct (process_existing_data supply db st) as [st' [e|]] eqn:E; simpl.
  - intros H; injection H as ->.
    revert E. unfold process_existing_data.
    destruct (source_find db) as [e|documents].
    { intros H; now injection H as _ ->. }
    cbn -[normalize_analyst_output default_keys_to_select].
    destruct (normalize_analyst_output supply (VList documents) None
                default_keys_to_select None (uuids_drawn st)) as [[e|data] n] eqn:N.
    { intros H; injection H as _ ->. apply normalize_error in N.
      destruct N as [N|[msg N]]; discriminate. }
    cbn -[normalize_analyst_output default_keys_to_select].
    destruct (target_insert_many db (target st) (map VDict data)) as [t [[]|]];
      discriminate.
  - intros H. now apply start_change_stream_absorbs in H.
Qed.

Lemma run_raises_storage_error_only_from_find_witness :
  source_find MoreExamples.find_fails = inl (PyMongoError "connection refused").
Proof.
  apply (run_raises_storage_error_only_from_find (list value) Examples.demo_supply
           MoreExamples.find_fails (initial []) "connection refused").
  reflexivity.
Defined.

(** X7.  When the column of the source resolves and the bulk insert
    succeeds, the backfill has passed to [insert_many], in one call, the
    flattened records of all the source with their identifiers, has drawn
    one identifier per nested item, and has printed their number. *)
Theorem backfill_inserts_the_normalized_records
  (T : Type) (supply : nat -> string) (db : Storage T) (st : state T)
  (records : list dict) (col : string) (t : T) :
  source_find db = inr (map VDict records) ->
  resolved records None = Some col ->
  target_insert_many db (target st)
    (map VDict (stamp_from supply (uuids_drawn st)
                  (flattened col default_keys_to_select None records))) = (t, None) ->
  snd (process_existing_data supply db st) = None /\
  target (fst (process_existing_data supply db st)) = t /\
  uuids_drawn (fst (process_existing_data supply db st)) =
    uuids_drawn st + list_sum (map (nested_len col) records) /\
  trace (fst (process_existing_data supply db st)) =
    trace st ++
    [ Print "Processing existing data..."; Find;
      InsertMany (map VDict (stamp_from supply (uuids_drawn st)
                    (flattened col default_keys_to_select None records)));
      Print ("Processed and inserted "
             ++ str_of_nat (list_sum (map (nested_len col) records))
             ++ " existing documents.") ].
Proof.
  intros Hfind Hres Hins.
  unfold process_existing_data. rewrite Hfind.
  cbn -[normalize_analyst_output default_keys_to_select].
  rewrite normalize_dicts, Hres.
  cbn -[default_keys_to_select stamp_from flattened str_of_nat]. rewrite Hins.
  cbn -[default_keys_to_select stamp_from flattened str_of_nat].
  rewrite stamp_from_length, flattened_length, <- !app_assoc.
  auto.
Qed.

Lemma backfill_inserts_the_normalized_records_witness :
  snd (process_existing_data Examples.demo_supply MoreExamples.append_only (initial []))
    = None /\
  target (fst (process_existing_data Examples.demo_supply MoreExamples.append_only
                 (initial []))) =
    [] ++ map VDict (stamp_from Examples.demo_supply 0
                       (flattened "analyst_outputs" default_keys_to_select None
                          [Examples.article_A1])) /\
  uuids_drawn (fst (process_existing_data Examples.demo_supply MoreExamples.append_only
                      (initial []))) =
    0 + list_sum (map (nested_len "analyst_outputs") [Examples.article_A1]) /\
  trace (fst (process_existing_data Examples.demo_supply MoreExamples.append_only
                (initial []))) =
    [] ++
    [ Print "Processing existing data..."; Find;
      InsertMany (map VDict (stamp_from Examples.demo_supply 0
                    (flattened "analyst_outputs" default_keys_to_select None
                       [Examples.article_A1])));
      Print ("Processed and inserted "
             ++ str_of_nat (list_sum (map (nested_len "analyst_outputs")
                                        [Examples.article_A1]))
             ++ " existing documents.") ].
Proof.
  apply (backfill_inserts_the_normalized_records (list value) Examples.demo_supply
           MoreExamples.append_only (initial []) [Examples.article_A1]
           "analyst_outputs"); reflexivity.
Defined.

(** ** The tail phase on a stream that ends *)

Lemma inserts_of_app (a b : list event) :
  inserts_of (a ++ b) = inserts_of a ++ inserts_of b.
Proof. unfold inserts_of. apply flat_map_app. Qed.

Section TailFacts.
Context {T : Type}.
Variable db : Storage T.

Lemma consume_attempts_every_insert (changes : list value) (st : state T) :
  forallb well_formed_change changes = true ->
  (forall t d t' e, target_insert_one db t d = (t', Some e) ->
                    exists m, e = ValueError m) ->
  snd (consume db (stream_of_list changes) st) = None /\
  inserts_of (trace (fst (consume db (stream_of_list changes) st))) =
    inserts_of (trace st) ++ inserted_documents changes.
Proof.
  intros Hwf Hval. revert st Hwf.
  induction changes as [|change changes IH]; intros st Hwf.
  - simpl. now rewrite app_nil_r.
  - simpl in Hwf. apply andb_true_iff in Hwf. destruct Hwf as [Hc Hwf].
    unfold well_formed_change in Hc.
    cbn [stream_of_list fold_right consume inserted_documents flat_map].
    fold (stream_of_list changes). fold (inserted_documents changes).
    unfold inserted_document.
    destruct (py_getitem change "operationType") as [e|op]; [discriminate|].
    destruct (eq_str "insert" op).
    2:{ destruct (IH st Hwf) as [R E]. now rewrite R, E. }
    destruct (py_getitem change "fullDocument") as [e|doc]; [discriminate|].
    destruct (target_insert_one db (target (emit (InsertOne doc) st)) doc)
      as [t [e|]] eqn:I.
    + destruct (Hval _ _ _ _ I) as [m ->].
      match goal with
      | |- context [consume db _ ?st'] => destruct (IH st' Hwf) as [R E]
      end.
      rewrite R, E. split; [reflexivity|].
      cbn [trace print emit set_target]. rewrite !inserts_of_app. simpl.
      now rewrite app_nil_r, <- app_assoc.
    + match goal with
      | |- context [consume db _ ?st'] => destruct (IH st' Hwf) as [R E]
      end.
      rewrite R, E. split; [reflexivity|].
      cbn [trace print emit set_target]. rewrite !inserts_of_app. simpl.
      now rewrite app_nil_r, <- app_assoc.
Qed.
End TailFacts.

Lemma consume_copies_in_order
  (db : Storage (list value)) (changes : list value) (st : state (list value)) :
  forallb well_formed_change changes = true ->
  (forall t d, target_insert_one db t d = (t ++ [d], None)) ->
  target (fst (consume db (stream_of_list changes) st)) =
    target st ++ inserted_documents changes.
Proof.
  intros Hwf Happ. revert st Hwf.
  induction changes as [|change changes IH]; intros st Hwf.
  - simpl. now rewrite app_nil_r.
  - simpl in Hwf. apply andb_true_iff in Hwf. destruct Hwf as [Hc Hwf].
    unfold well_formed_change in Hc.
    cbn [stream_of_list fold_right consume inserted_documents flat_map].
    fold (stream_of_list changes). fold (inserted_documents changes).
    unfold inserted_document.
    destruct (py_getitem change "operationType") as [e|op]; [discriminate|].
    destruct (eq_str "insert" op).
    2:{ now rewrite (IH st Hwf). }
    destruct (py_getitem change "fullDocument") as [e|doc]; [discriminate|].
    rewrite Happ. rewrite IH by exact Hwf.
    cbn [target print emit set_target]. simpl. now rewrite <- app_assoc.
Qed.

(** X8.  On a stream that delivers well-formed notifications and then
    ends, with a target whose [insert_one] fails with nothing but
    [ValueError], the tail phase returns without an exception and has
    called [insert_one] once for each insert notification, in the order
    of delivery, with the document of the notification; the other
    notifications lead to no call. *)
Theorem tail_attempts_every_insert
  (T : Type) (db : Storage T) (st : state T) (changes : list value) :
  source_watch db = inr (stream_of_list changes) ->
  forallb well_formed_change changes = true ->
  (forall t d t' e, target_insert_one db t d = (t', Some e) ->
                    exists m, e = ValueError m) ->
  snd (start_change_stream db st) = None /\
  inserts_of (trace (fst (start_change_stream db st))) =
    inserts_of (trace st) ++ inserted_documents changes.
Proof.
  intros Hw Hwf Hval. unfold start_change_stream. rewrite Hw.
  set (st0 := emit Watch (print "Listening for new changes..." st)).
  destruct (consume_attempts_every_insert db changes st0 Hwf Hval) as [R E].
  destruct (consume db (stream_of_list changes) st0) as [st1 raised].
  simpl in R, E. subst raised.
  split; [reflexivity|].
  cbn [fst trace print emit close_client]. rewrite !inserts_of_app, E.
  unfold st0. cbn [trace print emit]. rewrite !inserts_of_app. simpl.
  now rewrite !app_nil_r.
Qed.

Lemma tail_attempts_every_insert_witness :
  snd (start_change_stream MoreExamples.refusing_doc1 (initial [])) = None /\
  inserts_of (trace (fst (start_change_stream MoreExamples.refusing_doc1 (initial [])))) =
    inserts_of (trace (initial (T := list value) [])) ++
    inserted_documents
      [ Examples.insert_notification Examples.doc1;
        VDict [("operationType", VStr "update")];
        Examples.insert_notification Examples.doc2 ].
Proof.
  apply (tail_attempts_every_insert (list value) MoreExamples.refusing_doc1 (initial [])).
  - reflexivity.
  - reflexivity.
  - intros t d t' e. simpl.
    destruct (Examples.int_id d) as [[|[p|p|]|p]|]; intros H;
      try discriminate H; injection H as _ <-; eexists; reflexivity.
Defined.

(** X9.  On such a stream, with a target that takes every document, the
    tail phase leaves in the target what was there followed by the
    documents of the insert notifications, unchanged (not normalized) and
    in the order of delivery. *)
Theorem tail_copies_documents_in_order
  (db : Storage (list value)) (st : state (list value)) (changes : list value) :
  source_watch db = inr (stream_of_list changes) ->
  forallb well_formed_change changes = true ->
  (forall t d, target_insert_one db t d = (t ++ [d], None)) ->
  target (fst (start_change_stream db st)) =
    target st ++ inserted_documents changes.
Proof.
  intros Hw Hwf Happ. unfold start_change_stream. rewrite Hw.
  set (st0 := emit Watch (print "Listening for new changes..." st)).
  pose proof (consume_copies_in_order db changes st0 Hwf Happ) as E.
  destruct (consume db (stream_of_list changes) st0) as [st1 [[]|]];
    simpl in E |- *; exact E.
Qed.

Lemma tail_copies_documents_in_order_witness :
  target (fst (start_change_stream MoreExamples.append_only (initial [Examples.doc2]))) =
    target (initial [Examples.doc2]) ++
    inserted_documents
      [ Examples.insert_notification Examples.doc1;
        VDict [("operationType", VStr "update")];
        Examples.insert_notification Examples.doc2 ].
Proof.
  apply (tail_copies_documents_in_order MoreExamples.append_only
           (initial [Examples.doc2])); reflexivity.
Defined.

(** ** What [determine_exchange] answers *)

Section DetermineExchangeAnswer.
Variable upper : string -> string.
Variable ratio : string -> string -> Q.

Lemma determine_exchange_same_upper fuel df B1 B2 QUOTE :
  upper B1 = upper B2 ->
  determine_exchange upper ratio fuel df B1 QUOTE =
  determine_exchange upper ratio fuel df B2 QUOTE.
Proof.
  intros H. destruct fuel as [|fuel]; [reflexivity|].
  rewrite !determine_exchange_step. unfold base_known, base_codes.
  now rewrite H.
Qed.

Lemma known_base_has_codes df BASE :
  base_known upper df BASE = true -> base_codes upper df BASE <> [].
Proof.
  unfold base_known, base_codes. intros H E.
  apply existsb_exists in H. destruct H as [b [Hin Hb]].
  apply in_map_iff in Hin. destruct Hin as [r [<- Hr]].
  apply String.eqb_eq in Hb.
  assert (X : In (currency_code r)
                (map currency_code
                   (filter (fun r => String.eqb (Base r) (upper BASE)) df))).
  { apply in_map. apply filter_In. split; auto.
    rewrite Hb. apply String.eqb_refl. }
  rewrite E in X. exact X.
Qed.

Lemma chosen_quote_in_codes df BASE QUOTE :
  base_known upper df BASE = true ->
  exists q,
    chosen_quote upper ratio df BASE QUOTE = Some q /\
    In q (base_codes upper df BASE) /\
    (forall q', QUOTE = Some q' -> In q' (base_codes upper df BASE) -> q = q').
Proof.
  intros K. apply known_base_has_codes in K. unfold chosen_quote.
  set (asked := match QUOTE with Some q => q | None => "USD" end).
  destruct (existsb (String.eqb asked) (base_codes upper df BASE)) eqn:E.
  - exists asked. split; [reflexivity|]. split.
    + apply existsb_exists in E. destruct E as [x [Hx Ex]].
      apply String.eqb_eq in Ex. now subst.
    + intros q' -> _. reflexivity.
  - destruct (py_max (fun x => ratio asked x) (base_codes upper df BASE)) as [m|] eqn:P.
    + exists m. split; [reflexivity|]. split; [eapply py_max_in; eauto|].
      intros q' -> Hin. apply existsb_eqb_in in Hin.
      unfold asked in E. congruence.
    + destruct (base_codes upper df BASE); [congruence | discriminate].
Qed.

Hypothesis upper_idempotent : forall s, upper (upper s) = upper s.

Lemma determine_exchange_answer_upper df BASE QUOTE :
  determine_exchange_answer upper ratio df (upper BASE) QUOTE =
  determine_exchange_answer upper ratio df BASE QUOTE.
Proof.
  unfold determine_exchange_answer, chosen_quote, base_known, base_codes.
  now rewrite !upper_idempotent.
Qed.

Lemma determine_exchange_answer_quote df BASE q fuel :
  2 <= fuel ->
  determine_exchange upper ratio fuel df BASE (Some q) =
  Some (determine_exchange_answer upper ratio df BASE (Some q)).
Proof.
  destruct fuel as [|[|fuel]]; try lia. intros _.
  rewrite determine_exchange_step.
  unfold determine_exchange_answer, chosen_quote.
  destruct (base_known upper df BASE) eqn:K; [|reflexivity].
  cbn [negb].
  destruct (existsb (String.eqb q) (base_codes upper df BASE)) eqn:Hq; [reflexivity|].
  destruct (py_max (fun x => ratio q x) (base_codes upper df BASE)) as [m|] eqn:Hm;
    [|reflexivity].
  rewrite determine_exchange_step.
  unfold base_known, base_codes in *. rewrite !upper_idempotent, K.
  cbn [negb].
  now rewrite (existsb_eqb_in _ _ (py_max_in _ _ _ Hm)).
Qed.

Lemma determine_exchange_answer_any df BASE QUOTE fuel :
  3 <= fuel ->
  determine_exchange upper ratio fuel df BASE QUOTE =
  Some (determine_exchange_answer upper ratio df BASE QUOTE).
Proof.
  intros Hf. destruct QUOTE as [q|].
  - apply determine_exchange_answer_quote. lia.
  - destruct fuel as [|fuel]; [lia|].
    rewrite determine_exchange_step.
    destruct (base_known upper df BASE) eqn:K; cbn [negb].
    + rewrite determine_exchange_answer_quote by lia.
      rewrite determine_exchange_answer_upper.
      unfold determine_exchange_answer, chosen_quote. reflexivity.
    + unfold determine_exchange_answer. now rewrite K.
Qed.
End DetermineExchangeAnswer.

(** X10.  With three nested calls allowed, [determine_exchange] returns
    what one pass computes: the message for a base without rows;
    otherwise the URLs of the rows of the base whose code is the quote
    asked for ([USD] when none is), if that is a code of the base, and
    else of the rows whose code is the most similar code of the base. *)
Theorem determine_exchange_closed_form
  (upper : string -> string) (ratio : string -> string -> Q)
  (df : list row) (BASE : string) (QUOTE : option string) (fuel : nat) :
  (forall s, upper (upper s) = upper s) ->
  3 <= fuel ->
  determine_exchange upper ratio fuel df BASE QUOTE =
  Some (determine_exchange_answer upper ratio df BASE QUOTE).
Proof. intros H Hf. now apply determine_exchange_answer_any. Qed.

Lemma determine_exchange_closed_form_witness :
  determine_exchange upper_ascii Examples.prefix_ratio 4 Examples.tv_symbols
    "btc" (Some "USDC") =
  Some (determine_exchange_answer upper_ascii Examples.prefix_ratio
          Examples.tv_symbols "btc" (Some "USDC")).
Proof.
  apply (determine_exchange_closed_form upper_ascii Examples.prefix_ratio
           Examples.tv_symbols "btc" (Some "USDC") 4).
  - exact upper_ascii_idempotent.
  - lia.
Defined.

(** X11.  For a base that has rows, the answer is never the message nor
    an exception: it is a list of URL records that is not empty, all for
    the base in upper case and for one quote, which is a code of the
    base, and the quote asked for when that is a code of the base. *)
Theorem known_base_gets_urls
  (upper : string -> string) (ratio : string -> string -> Q)
  (df : list row) (BASE : string) (QUOTE : option string) :
  (forall s, upper (upper s) = upper s) ->
  base_known upper df BASE = true ->
  exists q urls,
    In q (base_codes upper df BASE) /\
    (forall q', QUOTE = Some q' -> In q' (base_codes upper df BASE) -> q = q') /\
    urls <> [] /\
    Forall (fun u => dict_get "base_currency" u = Some (VStr (upper BASE)) /\
                     dict_get "quote_currency" u = Some (VStr q)) urls /\
    forall fuel, 3 <= fuel ->
      determine_exchange upper ratio fuel df BASE QUOTE =
      Some (inr (VList (map VDict urls))).
Proof.
  intros Hup K.
  destruct (chosen_quote_in_codes upper ratio df BASE QUOTE K) as (q & Hq & Hin & Hasked).
  exists q.
  exists (generate_trading_urls upper (upper BASE) q
            (filter (fun r => String.eqb (Base r) (upper BASE)) df)).
  split; [exact Hin|]. split; [exact Hasked|]. split; [|split].
  - unfold base_codes in Hin. apply in_map_iff in Hin.
    destruct Hin as [r [Hr Hf]].
    unfold generate_trading_urls. intros E.
    apply map_eq_nil in E.
    assert (X : In r (filter (fun r => String.eqb (currency_code r) q)
                        (filter (fun r => String.eqb (Base r) (upper BASE)) df))).
    { apply filter_In. split; auto. rewrite Hr. apply String.eqb_refl. }
    rewrite E in X. exact X.
  - unfold generate_trading_urls. apply Forall_forall. intros u Hu.
    apply in_map_iff in Hu. destruct Hu as [r [<- _]]. split; reflexivity.
  - intros fuel Hf.
    rewrite determine_exchange_answer_any by assumption.
    unfold determine_exchange_answer. now rewrite K, Hq.
Qed.

Lemma known_base_gets_urls_witness :
  exists q urls,
    In q (base_codes upper_ascii Examples.tv_symbols "btc") /\
    (forall q', Some "GBP" = Some q' ->
                In q' (base_codes upper_ascii Examples.tv_symbols "btc") -> q = q') /\
    urls <> [] /\
    Forall (fun u => dict_get "base_currency" u = Some (VStr (upper_ascii "btc")) /\
                     dict_get "quote_currency" u = Some (VStr q)) urls /\
    forall fuel, 3 <= fuel ->
      determine_exchange upper_ascii Examples.prefix_ratio fuel Examples.tv_symbols
        "btc" (Some "GBP") =
      Some (inr (VList (map VDict urls))).
Proof.
  apply (known_base_gets_urls upper_ascii Examples.prefix_ratio Examples.tv_symbols
           "btc" (Some "GBP")).
  - exact upper_ascii_idempotent.
  - reflexivity.
Defined.

(** X12.  The base is read in upper case only: two bases with the same
    upper case get the same answer, whatever the depth allowed. *)
Theorem determine_exchange_ignores_case
  (upper : string -> string) (ratio : string -> string -> Q)
  (fuel : nat) (df : list row) (B1 B2 : string) (QUOTE : option string) :
  upper B1 = upper B2 ->
  determine_exchange upper ratio fuel df B1 QUOTE =
  determine_exchange upper ratio fuel df B2 QUOTE.
Proof. apply determine_exchange_same_upper. Qed.

Lemma determine_exchange_ignores_case_witness :
  determine_exchange upper_ascii Examples.prefix_ratio 3 Examples.tv_symbols
    "Btc" None =
  determine_exchange upper_ascii Examples.prefix_ratio 3 Examples.tv_symbols
    "bTC" None.
Proof.
  apply (determine_exchange_ignores_case upper_ascii Examples.prefix_ratio 3
           Examples.tv_symbols "Btc" "bTC" None).
  reflexivity.
Defined.

(** ** The retries of [get_market_data_with_proxy] *)

Import MarketData.

Lemma slept_app (a b : list net_event) : slept (a ++ b) = slept a + slept b.
Proof. unfold slept. now rewrite map_app, list_sum_app. Qed.

Lemma gets_app (a b : list net_event) : gets (a ++ b) = gets a + gets b.
Proof. unfold gets. now rewrite filter_app, length_app. Qed.

Section MarketDataFacts.
Variable server : nat -> reply.
Variables (coin quote : string) (offset : nat) (proxy : string).
Variable retries : nat.

#[local] Abbreviation attempt_ := (attempt server coin quote offset proxy retries).

#[local] Abbreviation after_retry := (MarketData.after_retry coin quote offset proxy).

Lemma attempt_retry remaining retry_count w :
  retried (server (requests_made w)) = true ->
  exists line,
    attempt_ (S remaining) retry_count w =
    attempt_ remaining (S retry_count) (after_retry line retry_count w).
Proof.
  intros H. cbn [attempt]. unfold retried in H.
  destruct (server (requests_made w)) as [[m|e]|code json].
  - eexists; reflexivity.
  - discriminate.
  - destruct (Nat.eqb code 200).
    + destruct json as [[m|e]|body]; try discriminate. eexists; reflexivity.
    + rewrite H. eexists; reflexivity.
Qed.

Lemma attempt_bound remaining retry_count w :
  exists l,
    log (fst (attempt_ remaining retry_count w)) = log w ++ l /\
    requests_made (fst (attempt_ remaining retry_count w)) = requests_made w + gets l /\
    gets l <= remaining.
Proof.
  revert retry_count w.
  induction remaining as [|remaining IH]; intros retry_count w.
  - cbn. eexists. split; [reflexivity|]. cbn. lia.
  - assert (R : forall line,
               exists l,
                 log (fst (attempt_ remaining (S retry_count)
                             (after_retry line retry_count w))) = log w ++ l /\
                 requests_made (fst (attempt_ remaining (S retry_count)
                                       (after_retry line retry_count w)))
                   = requests_made w + gets l /\
                 gets l <= S remaining).
    { intros line.
      destruct (IH (S retry_count) (after_retry line retry_count w)) as (l & L & Rq & G).
      exists ([Get coin quote offset proxy; Say line; Sleep (2 ^ S retry_count)] ++ l).
      rewrite L, Rq, gets_app. cbn [MarketData.after_retry sleep say request log requests_made].
      rewrite <- !app_assoc. split; [reflexivity|]. cbn. lia. }
    cbn [attempt].
    destruct (server (requests_made w)) as [[m|e]|code json].
    + apply R.
    + exists [Get coin quote offset proxy]. cbn. repeat split; lia.
    + destruct (Nat.eqb code 200).
      * destruct json as [[m|e]|body].
        -- apply R.
        -- exists [Get coin quote offset proxy]. cbn. repeat split; lia.
        -- exists [Get coin quote offset proxy].
           destruct (data_of body); cbn; repeat split; lia.
      * destruct (Nat.eqb code 503).
        -- apply R.
        -- eexists. cbn. rewrite <- app_assoc. split; [reflexivity|]. cbn. lia.
Qed.

Lemma attempt_exhausted remaining retry_count w :
  (forall i, i < remaining -> retried (server (requests_made w + i)) = true) ->
  exists l,
    attempt_ remaining retry_count w =
      ({| requests_made := requests_made w + remaining;
          log := log w ++ l
                   ++ [Say ("Failed after " ++ str_of_nat retries ++ " retries")] |},
       inr None) /\
    gets l = remaining /\
    slept l + 2 ^ S retry_count = 2 ^ S (retry_count + remaining).
Proof.
  revert retry_count w.
  induction remaining as [|remaining IH]; intros retry_count w H.
  - exists []. cbn. rewrite !Nat.add_0_r. auto.
  - destruct (attempt_retry remaining retry_count w) as [line E].
    { rewrite <- (Nat.add_0_r (requests_made w)). apply H. lia. }
    rewrite E.
    destruct (IH (S retry_count) (after_retry line retry_count w)) as (l & A & G & Hs).
    { intros i Hi. cbn [MarketData.after_retry sleep say request requests_made].
      replace (S (requests_made w) + i) with (requests_made w + S i) by lia.
      apply H. lia. }
    exists ([Get coin quote offset proxy; Say line; Sleep (2 ^ S retry_count)] ++ l).
    rewrite A. cbn [MarketData.after_retry sleep say request requests_made log].
    rewrite <- !app_assoc. split; [|split].
    + f_equal. f_equal. lia.
    + rewrite gets_app, G. reflexivity.
    + rewrite slept_app. unfold slept at 1. cbn [map list_sum fold_right].
      replace (S (retry_count + S remaining)) with (S (S retry_count + remaining)) by lia.
      rewrite <- Hs. rewrite (Nat.pow_succ_r' 2 (S retry_count)). cbn [app map list_sum]. lia.
Qed.

Lemma attempt_answered k remaining retry_count w body data :
  k < remaining ->
  (forall i, i < k -> retried (server (requests_made w + i)) = true) ->
  server (requests_made w + k) = Response 200 (inr body) ->
  data_of body = inr data ->
  exists l,
    attempt_ remaining retry_count w =
      ({| requests_made := requests_made w + S k; log := log w ++ l |},
       inr (Some data)) /\
    gets l = S k /\
    slept l + 2 ^ S retry_count = 2 ^ S (retry_count + k).
Proof.
  revert remaining retry_count w.
  induction k as [|k IH]; intros remaining retry_count w Hk Hre H200 Hdata.
  - destruct remaining as [|remaining]; [lia|].
    rewrite Nat.add_0_r in H200. cbn [attempt]. rewrite H200. cbn. rewrite Hdata.
    exists [Get coin quote offset proxy]. split; [|split].
    + unfold request. now rewrite Nat.add_1_r.
    + reflexivity.
    + unfold slept. cbn [map list_sum fold_right]. now rewrite (Nat.add_0_r retry_count).
  - destruct remaining as [|remaining]; [lia|].
    destruct (attempt_retry remaining retry_count w) as [line E].
    { rewrite <- (Nat.add_0_r (requests_made w)). apply Hre. lia. }
    rewrite E.
    destruct (IH remaining (S retry_count) (after_retry line retry_count w))
      as (l & A & G & Hs); [lia | | | exact Hdata |].
    { intros i Hi. cbn [MarketData.after_retry sleep say request requests_made].
      replace (S (requests_made w) + i) with (requests_made w + S i) by lia.
      apply Hre. lia. }
    { cbn [MarketData.after_retry sleep say request requests_made].
      replace (S (requests_made w) + k) with (requests_made w + S k) by lia.
      exact H200. }
    exists ([Get coin quote offset proxy; Say line; Sleep (2 ^ S retry_count)] ++ l).
    rewrite A. cbn [MarketData.after_retry sleep say request requests_made log].
    rewrite <- !app_assoc. split; [|split].
    + f_equal. f_equal. lia.
    + rewrite gets_app, G. reflexivity.
    + rewrite slept_app. unfold slept at 1. cbn [map list_sum fold_right].
      replace (S (retry_count + S k)) with (S (S retry_count + k)) by lia.
      rewrite <- Hs. rewrite (Nat.pow_succ_r' 2 (S retry_count)). cbn [app map list_sum]. lia.
Qed.
End MarketDataFacts.

(** X13.  Whatever the server replies, a call sends at most [retries]
    requests. *)
Theorem market_data_requests_bounded
  (server : nat -> reply) (coin quote : string) (offset : nat) (proxy : string)
  (retries : nat) (w : net_state) :
  exists l,
    log (fst (get_market_data_with_proxy server coin quote offset proxy retries w))
      = log w ++ l /\
    requests_made (fst (get_market_data_with_proxy server coin quote offset proxy retries w))
      = requests_made w + gets l /\
    gets l <= retries.
Proof. apply attempt_bound. Qed.

(** X14.  When each of the [retries] replies is a 503 or a request
    exception, the call sends exactly [retries] requests, sleeps after
    each of them, [2 ^ (retries + 1) - 2] seconds in all, prints that it
    failed and returns [None]; with [retries = 0] it sends nothing. *)
Theorem market_data_gives_up
  (server : nat -> reply) (coin quote : string) (offset : nat) (proxy : string)
  (retries : nat) (w : net_state) :
  (forall i, i < retries -> retried (server (requests_made w + i)) = true) ->
  exists l,
    get_market_data_with_proxy server coin quote offset proxy retries w =
      ({| requests_made := requests_made w + retries;
          log := log w ++ l
                   ++ [Say ("Failed after " ++ str_of_nat retries ++ " retries")] |},
       inr None) /\
    gets l = retries /\
    slept l + 2 = 2 ^ (retries + 1).
Proof.
  intros H. unfold get_market_data_with_proxy.
  destruct (attempt_exhausted server coin quote offset proxy retries retries 0 w H)
    as (l & A & G & Hs).
  exists l. split; [exact A|]. split; [exact G|].
  cbn in Hs. rewrite Nat.add_1_r. cbn. lia.
Qed.

Lemma market_data_gives_up_witness :
  exists l,
    get_market_data_with_proxy MoreExamples.always_busy "BTC" "USD" 30 "http://proxy" 3
      MoreExamples.fresh =
      ({| requests_made := requests_made MoreExamples.fresh + 3;
          log := log MoreExamples.fresh ++ l
                   ++ [Say ("Failed after " ++ str_of_nat 3 ++ " retries")] |},
       inr None) /\
    gets l = 3 /\
    slept l + 2 = 2 ^ (3 + 1).
Proof.
  apply (market_data_gives_up MoreExamples.always_busy "BTC" "USD" 30 "http://proxy" 3
           MoreExamples.fresh).
  intros i Hi. reflexivity.
Defined.

(** X15.  When the first [k] replies are 503s or request exceptions and
    the next, within the [retries], is a 200 whose JSON body is an
    object, the call returns the [data] of that body (an empty list when
    it has none) after [k + 1] requests and [2 ^ (k + 1) - 2] seconds of
    sleep. *)
Theorem market_data_answers_after_retries
  (server : nat -> reply) (coin quote : string) (offset : nat) (proxy : string)
  (retries : nat) (w : net_state) (k : nat) (body data : value) :
  k < retries ->
  (forall i, i < k -> retried (server (requests_made w + i)) = true) ->
  server (requests_made w + k) = Response 200 (inr body) ->
  data_of body = inr data ->
  exists l,
    get_market_data_with_proxy server coin quote offset proxy retries w =
      ({| requests_made := requests_made w + S k; log := log w ++ l |},
       inr (Some data)) /\
    gets l = S k /\
    slept l + 2 = 2 ^ (k + 1).
Proof.
  intros Hk Hre H200 Hdata. unfold get_market_data_with_proxy.
  destruct (attempt_answered server coin quote offset proxy retries k retries 0 w
              body data Hk Hre H200 Hdata) as (l & A & G & Hs).
  exists l. split; [exact A|]. split; [exact G|].
  cbn in Hs. rewrite Nat.add_1_r. cbn. lia.
Qed.

Lemma market_data_answers_after_retries_witness :
  exists l,
    get_market_data_with_proxy MoreExamples.busy_twice "BTC" "USD" 0 "http://proxy" 3
      MoreExamples.fresh =
      ({| requests_made := requests_made MoreExamples.fresh + 3;
          log := log MoreExamples.fresh ++ l |},
       inr (Some (VList [VDict [("base", VStr "BTC")]]))) /\
    gets l = 3 /\
    slept l + 2 = 2 ^ (2 + 1).
Proof.
  apply (market_data_answers_after_retries MoreExamples.busy_twice "BTC" "USD" 0
           "http://proxy" 3 MoreExamples.fresh 2
           (VDict [("data", VList [VDict [("base", VStr "BTC")]])])).
  - lia.
  - intros [|[|i]] Hi; [reflexivity | reflexivity | lia].
  - reflexivity.
  - reflexivity.
Defined.

(** ** The cleaning of the symbols in [extract_tv_url] *)

Import TvSymbols.

Lemma py_endswith_app (s suffix : string) : py_endswith (s ++ suffix) suffix = true.
Proof.
  induction s as [|c s IH]; simpl.
  - destruct suffix; simpl; rewrite ?String.eqb_refl, ?Ascii.eqb_refl; reflexivity.
  - rewrite IH. apply orb_true_r.
Qed.

Lemma py_rstrip_app (chars s t : string) :
  py_rstrip chars t = EmptyString -> py_rstrip chars (s ++ t) = py_rstrip chars s.
Proof.
  intros Ht. induction s as [|c s IH]; simpl.
  - exact Ht.
  - now rewrite IH.
Qed.

Lemma py_rstrip_length (chars s : string) :
  String.length (py_rstrip chars s) <= String.length s.
Proof.
  induction s as [|c s IH]; simpl; auto.
  destruct (py_rstrip chars s); simpl in *.
  - destruct (char_in c chars); simpl; lia.
  - lia.
Qed.

Lemma length_append (a b : string) :
  String.length (a ++ b) = String.length a + String.length b.
Proof. induction a; simpl; auto. Qed.

Lemma append_assoc_string (a b c : string) :
  ((a ++ b) ++ c)%string = (a ++ (b ++ c))%string.
Proof. induction a as [|x a IH]; simpl; [reflexivity | now rewrite IH]. Qed.

(** X16.  For a symbol that ends in [.P], the first cleaning step does
    not just take the two characters off: it removes every trailing dot
    and [P], so that a pair whose own name ends in [P] loses that letter
    as well. *)
Theorem perpetual_suffix_strips_trailing_letters (s : string) :
  Base0 (s ++ ".P") = py_rstrip ".P" s /\
  Base0 (s ++ "P.P") = py_rstrip ".P" s /\
  Base0 (s ++ "P.P") <> (s ++ "P")%string.
Proof.
  assert (A : Base0 (s ++ ".P") = py_rstrip ".P" s).
  { unfold Base0. rewrite py_endswith_app. now apply py_rstrip_app. }
  assert (B : Base0 (s ++ "P.P") = py_rstrip ".P" s).
  { unfold Base0.
    change (s ++ "P.P")%string with (s ++ ("P" ++ ".P"))%string.
    rewrite <- (append_assoc_string s "P" ".P").
    rewrite py_endswith_app.
    rewrite py_rstrip_app by reflexivity. now apply py_rstrip_app. }
  split; [exact A|]. split; [exact B|].
  rewrite B. intros E.
  pose proof (py_rstrip_length ".P" s) as L.
  rewrite E, length_append in L. simpl in L. lia.
Qed.

(** ** A notification without its operation type *)

(** X17.  A notification that is a dict without [operationType] ends the
    tail phase with a [KeyError]: no handler of the method takes it, the
    notifications behind it are not read and nothing is inserted, and
    the client is closed before the exception leaves. *)
Theorem malformed_notification_ends_the_tail
  (T : Type) (db : Storage T) (st : state T) (d : dict) (rest : stream) :
  source_watch db = inr (StreamNext (VDict d) rest) ->
  dict_get "operationType" d = None ->
  start_change_stream db st =
    (print "Connection closed."
       (close_client (emit Watch (print "Listening for new changes..." st))),
     Some (KeyError "operationType")).
Proof.
  intros Hw Hd. unfold start_change_stream. rewrite Hw.
  cbn [consume py_getitem]. rewrite Hd. reflexivity.
Qed.

Lemma malformed_notification_ends_the_tail_witness :
  start_change_stream
    {| source_find := inr [];
       source_watch := inr (StreamNext (VDict [("fullDocument", Examples.doc1)])
                              (StreamNext (Examples.insert_notification Examples.doc2)
                                 StreamEnd));
       target_insert_one := Examples.unique_insert_one;
       target_insert_many := Examples.unique_insert_many |}
    (initial []) =
    (print "Connection closed."
       (close_client (emit Watch (print "Listening for new changes..." (initial [])))),
     Some (KeyError "operationType")).
Proof.
  apply (malformed_notification_ends_the_tail (list value) _ (initial [])
           [("fullDocument", Examples.doc1)]
           (StreamNext (Examples.insert_notification Examples.doc2) StreamEnd));
    reflexivity.
Defined.

(** ** Records that are not containers *)

Lemma any_contains_scalar k (items : list value) r :
  In r items -> is_scalar r = true ->
  any_contains k items = inl TypeError \/ any_contains k items = inr true.
Proof.
  intros Hin Hr. induction items as [|x items IH]; [contradiction|].
  simpl. destruct Hin as [->|Hin].
  - left. destruct r; try discriminate; reflexivity.
  - destruct (py_contains k x) as [e|[|]] eqn:E; auto.
    left. destruct x; simpl in E; try discriminate; now injection E as <-.
Qed.

Lemma process_records_scalar supply col keys ren (items : list value) r s :
  In r items -> is_scalar r = true ->
  fst (process_records supply col keys ren items s) = inl TypeError.
Proof.
  intros Hin Hr. revert s.
  induction items as [|x items IH]; intros s; [contradiction|].
  simpl. unfold bind.
  destruct (process_record supply col keys ren x s) as [[e|produced] s1] eqn:E.
  - apply process_record_error in E. now subst.
  - destruct Hin as [->|Hin].
    + destruct r; try discriminate; discriminate E.
    + specialize (IH Hin s1).
      destruct (process_records supply col keys ren items s1) as [[e|others] s2];
        simpl in *; congruence.
Qed.

(** X18.  A list in which some record is not a container (None, a
    boolean, a number, another scalar) is never normalized: the call
    raises a [TypeError], with or without a column name. *)
Theorem scalar_record_raises_type_error
  (supply : nat -> string) (items : list value) (r : value) (cn : option string)
  (keys : list string) (ren : option (list (string * string))) (s : nat) :
  In r items -> is_scalar r = true ->
  fst (normalize_analyst_output supply (VList items) cn keys ren s) = inl TypeError.
Proof.
  intros Hin Hr. unfold normalize_analyst_output, bind, lift.
  destruct (resolve_column items cn) as [e|col] eqn:E; simpl.
  - unfold resolve_column in E.
    destruct (truthy_column cn) as [c|].
    + destruct (any_contains_scalar c items r Hin Hr) as [A|A]; rewrite A in E;
        congruence.
    + destruct (any_contains_scalar "analyst_consensus_output" items r Hin Hr)
        as [A|A]; rewrite A in E; congruence.
  - now apply process_records_scalar with (r := r).
Qed.

Lemma scalar_record_raises_type_error_witness :
  fst (normalize_analyst_output Examples.demo_supply
         (VList [VDict Examples.article_A1; VInt 5]) None
         default_keys_to_select None 0) = inl TypeError.
Proof.
  apply (scalar_record_raises_type_error Examples.demo_supply
           [VDict Examples.article_A1; VInt 5] (VInt 5)).
  - right. left. reflexivity.
  - reflexivity.
Defined.

(** ** A status that is neither 200 nor 503 *)

Section MarketDataRefusal.
Variable server : nat -> reply.
Variables (coin quote : string) (offset : nat) (proxy : string).
Variable retries : nat.

Lemma attempt_refused k remaining retry_count w code json :
  k < remaining ->
  (forall i, i < k -> retried (server (requests_made w + i)) = true) ->
  server (requests_made w + k) = Response code json ->
  code <> 200 -> code <> 503 ->
  exists l,
    attempt server coin quote offset proxy retries remaining retry_count w =
      ({| requests_made := requests_made w + S k;
          log := log w ++ l
                   ++ [Say ("Request failed with status code " ++ str_of_nat code)] |},
       inr None) /\
    gets l = S k /\
    slept l + 2 ^ S retry_count = 2 ^ S (retry_count + k).
Proof.
  revert remaining retry_count w.
  induction k as [|k IH]; intros remaining retry_count w Hk Hre Hrep H200 H503.
  - destruct remaining as [|remaining]; [lia|].
    rewrite Nat.add_0_r in Hrep. cbn [attempt]. rewrite Hrep.
    apply Nat.eqb_neq in H200, H503. rewrite H200, H503.
    exists [Get coin quote offset proxy]. split; [|split].
    + unfold say, request. cbn. rewrite Nat.add_1_r, <- app_assoc. reflexivity.
    + reflexivity.
    + unfold slept. cbn [map list_sum fold_right]. now rewrite (Nat.add_0_r retry_count).
  - destruct remaining as [|remaining]; [lia|].
    destruct (attempt_retry server coin quote offset proxy retries remaining retry_count w)
      as [line E].
    { rewrite <- (Nat.add_0_r (requests_made w)). apply Hre. lia. }
    rewrite E.
    destruct (IH remaining (S retry_count)
                (after_retry coin quote offset proxy line retry_count w))
      as (l & A & G & Hs); [lia | | | exact H200 | exact H503 |].
    { intros i Hi. cbn [after_retry sleep say request requests_made].
      replace (S (requests_made w) + i) with (requests_made w + S i) by lia.
      apply Hre. lia. }
    { cbn [after_retry sleep say request requests_made].
      replace (S (requests_made w) + k) with (requests_made w + S k) by lia.
      exact Hrep. }
    exists ([Get coin quote offset proxy; Say line; Sleep (2 ^ S retry_count)] ++ l).
    rewrite A. cbn [after_retry sleep say request requests_made log].
    rewrite <- !app_assoc. split; [|split].
    + f_equal. f_equal. lia.
    + rewrite gets_app, G. reflexivity.
    + rewrite slept_app. unfold slept at 1. cbn [map list_sum fold_right].
      replace (S (retry_count + S k)) with (S (S retry_count + k)) by lia.
      rewrite <- Hs. rewrite (Nat.pow_succ_r' 2 (S retry_count)). lia.
Qed.
End MarketDataRefusal.

(** X19.  A reply with a status other than 200 and 503 is not retried:
    the call prints the status and returns [None] right after that
    request, without sleeping after it and without the final line of the
    exhausted retries. *)
Theorem market_data_does_not_retry_other_statuses
  (server : nat -> reply) (coin quote : string) (offset : nat) (proxy : string)
  (retries : nat) (w : net_state) (k code : nat) (json : failure + value) :
  k < retries ->
  (forall i, i < k -> retried (server (requests_made w + i)) = true) ->
  server (requests_made w + k) = Response code json ->
  code <> 200 -> code <> 503 ->
  exists l,
    get_market_data_with_proxy server coin quote offset proxy retries w =
      ({| requests_made := requests_made w + S k;
          log := log w ++ l
                   ++ [Say ("Request failed with status code " ++ str_of_nat code)] |},
       inr None) /\
    gets l = S k /\
    slept l + 2 = 2 ^ (k + 1).
Proof.
  intros Hk Hre Hrep H200 H503. unfold get_market_data_with_proxy.
  destruct (attempt_refused server coin quote offset proxy retries k retries 0 w
              code json Hk Hre Hrep H200 H503) as (l & A & G & Hs).
  exists l. split; [exact A|]. split; [exact G|].
  cbn in Hs. rewrite Nat.add_1_r. cbn. lia.
Qed.

Lemma market_data_does_not_retry_other_statuses_witness :
  exists l,
    get_market_data_with_proxy (fun _ => Response 429 (inr VNone)) "BTC" "USD" 0
      "http://proxy" 3 MoreExamples.fresh =
      ({| requests_made := requests_made MoreExamples.fresh + 1;
          log := log MoreExamples.fresh ++ l
                   ++ [Say ("Request failed with status code " ++ str_of_nat 429)] |},
       inr None) /\
    gets l = 1 /\
    slept l + 2 = 2 ^ (0 + 1).
Proof.
  apply (market_data_does_not_retry_other_statuses (fun _ => Response 429 (inr VNone))
           "BTC" "USD" 0 "http://proxy" 3 MoreExamples.fresh 0 429 (inr VNone)).
  - lia.
  - intros i Hi. lia.
  - reflexivity.
  - discriminate.
  - discriminate.
Defined.
